(** * The sandboxed bash runner of piece-bash-runner

    A shallow embedding of [runBashCommandSandboxed.run]
    (src/actions/run-bash-command-sandboxed.ts, the revision with the
    [runAsRoot] property): the cleaning of the user's command, the composition
    of the in-container script, the container bootstrap command, the handler
    of the attached output stream, and the supervision of the container with
    its timeout.  The Docker daemon is an explicit parameter of [run]. *)

From Stdlib Require Import List String Ascii NArith ZArith Bool Lia.

Import ListNotations.

Local Open Scope N_scope.

Local Open Scope list_scope.

(** * The program *)

(** ** JavaScript strings

    A JavaScript string is a sequence of 16-bit code units.  Program text is
    written as a Rocq string literal and converted by [lit]; inside such a
    literal a backquote stands for the double quote character (a backquote
    cannot occur in the text of the source's template literals, which are
    delimited by it). *)

Module JS.

Definition jsstring := list N.

Definition unit_of_ascii (a : ascii) : N :=
  if Ascii.eqb a "`"%char then 34 else N_of_ascii a.

Definition lit (s : string) : jsstring :=
  map unit_of_ascii (list_ascii_of_string s).

Definition eqb (a b : jsstring) : bool :=
  if list_eq_dec N.eq_dec a b then true else false.

(** [s.startsWith(p)]. *)
Fixpoint startsWith (p s : jsstring) : bool :=
  match p, s with
  | [], _ => true
  | _ :: _, [] => false
  | x :: p', y :: s' => (x =? y) && startsWith p' s'
  end.

(** [s.includes(p)]. *)
Fixpoint includes (p s : jsstring) : bool :=
  startsWith p s ||
  match s with
  | [] => false
  | _ :: s' => includes p s'
  end.

(** Truthiness of an optional string: [undefined] and [''] are falsy. *)
Definition truthy (o : option jsstring) : bool :=
  match o with
  | Some (_ :: _) => true
  | _ => false
  end.

(** [${x}] inside a template literal. *)
Definition show (o : option jsstring) : jsstring :=
  match o with
  | Some s => s
  | None => lit "undefined"
  end.

(** LineTerminator code units: LF, CR, LS, PS.  The regular expression atom
    [.] (without the [s] flag) matches every code unit but these. *)
Definition isLineTerminator (c : N) : bool :=
  (c =? 10) || (c =? 13) || (c =? 8232) || (c =? 8233).

(** WhiteSpace and LineTerminator code units, what [trim] removes. *)
Definition isWhiteSpace (c : N) : bool :=
  (c =? 9) || (c =? 10) || (c =? 11) || (c =? 12) || (c =? 13) || (c =? 32)
  || (c =? 160) || (c =? 5760) || ((8192 <=? c) && (c <=? 8202))
  || (c =? 8232) || (c =? 8233) || (c =? 8239) || (c =? 8287)
  || (c =? 12288) || (c =? 65279).

Fixpoint dropWhile (f : N -> bool) (s : jsstring) : jsstring :=
  match s with
  | [] => []
  | c :: s' => if f c then dropWhile f s' else s
  end.

Definition trimStart (s : jsstring) : jsstring := dropWhile isWhiteSpace s.

Definition trimEnd (s : jsstring) : jsstring :=
  rev (dropWhile isWhiteSpace (rev s)).

(** [s.trim()]. *)
Definition trim (s : jsstring) : jsstring := trimEnd (trimStart s).

(** [s.slice(n)] for [0 <= n]. *)
Definition slice (n : nat) (s : jsstring) : jsstring := skipn n s.

End JS.

Import JS.

(** ** Cleaning the user's command

    [command.replace(/^#!.*\n/, '').trim()].  The pattern has no flags: [^]
    matches at the start of the input only and the replacement happens at
    most once.  [.*] is greedy over code units that are not line terminators
    and [\n] must follow it; as no unit of such a run is a line feed, the
    pattern matches exactly when the maximal run after [#!] is followed by a
    line feed. *)

Definition strip_shebang (command : jsstring) : jsstring :=
  if startsWith (lit "#!") command then
    match dropWhile (fun c => negb (isLineTerminator c)) (slice 2 command) with
    | c :: after => if c =? 10 then after else command
    | [] => command
    end
  else command.

Definition cleanCommand (command : jsstring) : jsstring :=
  trim (strip_shebang command).

Definition nl : jsstring := [10].

Definition cr : jsstring := [13].

(** ** The request

    [context.propsValue].  Every property but [command] is optional, so it
    may be [undefined]; [timeout] is a number of seconds, taken here as a
    whole number. *)

Record Props := {
  command : jsstring;
  mountType : option jsstring;
  mountSource : option jsstring;
  mountPoint : option jsstring;
  mountOptions : option jsstring;
  mountUsername : option jsstring;
  mountPassword : option jsstring;
  dockerImage : option jsstring;
  timeout : option Z;
  runAsRoot : option bool
}.

Definition imageName (p : Props) : jsstring :=
  if truthy (dockerImage p) then show (dockerImage p) else lit "ubuntu:latest".

Definition cleanedCommand (p : Props) : jsstring := cleanCommand (command p).

(** ** Template literals

    A template literal is kept as the list of its parts, so that the text
    written by the program ([Lit]) can be told apart from the text substituted
    from the request ([Sub]); [render] is the string the literal evaluates
    to. *)

Inductive part :=
| Lit (s : jsstring)
| Sub (s : jsstring).

Definition template := list part.

Definition text_of (x : part) : jsstring :=
  match x with
  | Lit s => s
  | Sub s => s
  end.

Definition render (t : template) : jsstring := flat_map text_of t.

Definition literals (t : template) : list jsstring :=
  flat_map (fun x => match x with Lit s => [s] | Sub _ => [] end) t.

(** [o || d] where [d] is a string constant of the program. *)
Definition or_default (o : option jsstring) (d : jsstring) : part :=
  if truthy o then Sub (show o) else Lit d.

Definition is_type (p : Props) (k : string) : bool :=
  match mountType p with
  | Some s => JS.eqb s (lit k)
  | None => false
  end.

Definition truthy_flag (o : option bool) : bool :=
  match o with
  | Some true => true
  | _ => false
  end.

(** ** The mount plan *)

Definition nfs_install : jsstring := (lit "
# Install NFS utilities as root
export DEBIAN_FRONTEND=noninteractive
if command -v apt-get &>/dev/null; then
  timeout 30 apt-get update -qq >/dev/null 2>&1 || echo `[Warning] apt-get update failed` >&2
  timeout 30 apt-get install -y --no-install-recommends nfs-common >/dev/null 2>&1 || echo `[Warning] nfs-common installation failed` >&2
elif command -v apk &>/dev/null; then
  apk add --no-cache nfs-utils >/dev/null 2>&1 || echo `[Warning] nfs-utils installation failed` >&2
elif command -v yum &>/dev/null; then
  yum install -y nfs-utils >/dev/null 2>&1 || echo `[Warning] nfs-utils installation failed` >&2
fi").

Definition smb_install : jsstring := (lit "
# Install CIFS utilities as root
export DEBIAN_FRONTEND=noninteractive
if command -v apt-get &>/dev/null; then
  timeout 30 apt-get update -qq >/dev/null 2>&1 || echo `[Warning] apt-get update failed` >&2
  timeout 30 apt-get install -y --no-install-recommends cifs-utils >/dev/null 2>&1 || echo `[Warning] cifs-utils installation failed` >&2
elif command -v apk &>/dev/null; then
  apk add --no-cache cifs-utils >/dev/null 2>&1 || echo `[Warning] cifs-utils installation failed` >&2
elif command -v yum &>/dev/null; then
  yum install -y cifs-utils >/dev/null 2>&1 || echo `[Warning] cifs-utils installation failed` >&2
fi").

Definition installPackages (p : Props) : jsstring :=
  if is_type p "nfs" then nfs_install
  else if is_type p "smb" then smb_install
  else [].

Definition nfsOptions (p : Props) : template :=
  [or_default (mountOptions p) (lit "rw,sync")].

Definition smbOptions (p : Props) : template :=
  let smbOptions := [or_default (mountOptions p) (lit "rw")] in
  if truthy (mountUsername p) then
    let smbOptions :=
      smbOptions ++ [Lit (lit ",username="); Sub (show (mountUsername p))] in
    if truthy (mountPassword p) then
      smbOptions ++ [Lit (lit ",password="); Sub (show (mountPassword p))]
    else smbOptions
  else smbOptions.

Definition mountCommand (p : Props) : template :=
  if is_type p "nfs" then
    [Lit (lit "mount -t nfs -o ")] ++ nfsOptions p
    ++ [Lit (lit " "); Sub (show (mountSource p));
        Lit (lit " "); Sub (show (mountPoint p))]
  else if is_type p "smb" then
    [Lit (lit "mount -t cifs -o ")] ++ smbOptions p
    ++ [Lit (lit " "); Sub (show (mountSource p));
        Lit (lit " "); Sub (show (mountPoint p))]
  else [].

(** ** The composed script *)

Definition as_root_stage (p : Props) : template :=
  [Lit (lit "
# Execute command as root
cd /workspace
");
   Sub (cleanedCommand p);
   Lit (lit "
")].

Definition switch_user_stage (p : Props) : template :=
  [Lit (lit "
# Switch to non-root user for command execution
su - activepieces << 'EOF'
cd /workspace
");
   Sub (cleanedCommand p);
   Lit (lit "
EOF
")].

Definition run_as_user_stage (p : Props) : template :=
  [Lit (lit "
# Run command as non-root user
su - activepieces << 'EOF'
cd /workspace
");
   Sub (cleanedCommand p);
   Lit (lit "
EOF
")].

Definition unmount_stage (p : Props) : template :=
  [Lit (lit "

# Unmount as root (after user command completes)
umount ");
   Sub (show (mountPoint p));
   Lit (lit " 2>/dev/null || true
")].

Definition mounted_script (p : Props) : template :=
  [Lit (lit "#!/bin/bash
# Script runs as root initially
set +e

");
   Lit (installPackages p);
   Lit (lit "

# Create mount point as root
mkdir -p ");
   Sub (show (mountPoint p));
   Lit (lit " 2>/dev/null || echo `[Warning] Could not create mount point ");
   Sub (show (mountPoint p));
   Lit (lit "` >&2

# Mount network drive as root
if ")]
  ++ mountCommand p
  ++ [Lit (lit "; then
  :  # Mount successful, no output
else
  MOUNT_EXIT=$?
  echo `[Error] Mount failed with exit code: $MOUNT_EXIT` >&2
fi

")]
  ++ (if truthy_flag (runAsRoot p) then as_root_stage p
      else switch_user_stage p)
  ++ unmount_stage p.

Definition unmounted_script (p : Props) : template :=
  [Lit (lit "#!/bin/bash
# No mount configuration
set +e

")]
  ++ (if truthy_flag (runAsRoot p) then as_root_stage p
      else run_as_user_stage p)
  ++ [Lit (lit "
")].

Definition mount_requested (p : Props) : bool :=
  truthy (mountType p) && truthy (mountSource p).

Definition fullScript_parts (p : Props) : template :=
  if mount_requested p then mounted_script p else unmounted_script p.

Definition fullScript (p : Props) : jsstring := render (fullScript_parts p).

(** ** Buffers

    A [Buffer] is a sequence of bytes.  [from] is [Buffer.from(s)] (the UTF-8
    encoding of a string, a surrogate outside a pair becoming U+FFFD),
    [base64] is [buf.toString('base64')] and [toString] is [buf.toString()]
    (UTF-8 decoding, every maximal ill-formed subsequence becoming U+FFFD). *)

Module Buffer.

Definition Buffer := list N.

Definition isHigh (c : N) : bool := (55296 <=? c) && (c <=? 56319).

Definition isLow (c : N) : bool := (56320 <=? c) && (c <=? 57343).

Definition replacement : Buffer := [239; 191; 189].

Definition utf8_of_point (cp : N) : Buffer :=
  if cp <? 128 then [cp]
  else if cp <? 2048 then [192 + cp / 64; 128 + cp mod 64]
  else if cp <? 65536 then
    [224 + cp / 4096; 128 + (cp / 64) mod 64; 128 + cp mod 64]
  else
    [240 + cp / 262144; 128 + (cp / 4096) mod 64;
     128 + (cp / 64) mod 64; 128 + cp mod 64].

Fixpoint from (s : jsstring) : Buffer :=
  match s with
  | [] => []
  | c :: s' =>
      if isHigh c then
        match s' with
        | d :: s'' =>
            if isLow d then
              utf8_of_point (65536 + (c - 55296) * 1024 + (d - 56320))
              ++ from s''
            else replacement ++ from s'
        | [] => replacement
        end
      else if isLow c then replacement ++ from s'
      else utf8_of_point c ++ from s'
  end.

Definition alphabet : jsstring :=
  lit "ABCDEFGHIJKLMNOPQRSTUVWXYZabcdefghijklmnopqrstuvwxyz0123456789+/".

Definition digit (n : N) : N := nth (N.to_nat n) alphabet 0.

Fixpoint base64 (b : Buffer) : jsstring :=
  match b with
  | [] => []
  | [x] => [digit (x / 4); digit ((x mod 4) * 16); 61; 61]
  | [x; y] =>
      [digit (x / 4); digit ((x mod 4) * 16 + y / 16);
       digit ((y mod 16) * 4); 61]
  | x :: y :: z :: rest =>
      [digit (x / 4); digit ((x mod 4) * 16 + y / 16);
       digit ((y mod 16) * 4 + z / 64); digit (z mod 64)]
      ++ base64 rest
  end.

(** A started multi-byte sequence: the bits read so far, the number of
    continuation bytes still expected and the range allowed for the next. *)
Definition pending := (N * N * N * N)%type.

Definition utf16_of_point (cp : N) : jsstring :=
  if cp <? 65536 then [cp]
  else [55296 + (cp - 65536) / 1024; 56320 + (cp - 65536) mod 1024].

Definition lead (b : N) : jsstring * option pending :=
  if b <? 128 then ([b], None)
  else if (194 <=? b) && (b <=? 223) then ([], Some (b - 192, 1, 128, 191))
  else if (224 <=? b) && (b <=? 239) then
    ([], Some (b - 224, 2,
               if b =? 224 then 160 else 128,
               if b =? 237 then 159 else 191))
  else if (240 <=? b) && (b <=? 244) then
    ([], Some (b - 240, 3,
               if b =? 240 then 144 else 128,
               if b =? 244 then 143 else 191))
  else ([65533], None).

Fixpoint decode (st : option pending) (bs : Buffer) : jsstring :=
  match bs with
  | [] =>
      match st with
      | None => []
      | Some _ => [65533]
      end
  | b :: bs' =>
      match st with
      | None => fst (lead b) ++ decode (snd (lead b)) bs'
      | Some (cp, n, lo, hi) =>
          if (lo <=? b) && (b <=? hi) then
            if n =? 1 then utf16_of_point (cp * 64 + (b - 128)) ++ decode None bs'
            else decode (Some (cp * 64 + (b - 128), n - 1, 128, 191)) bs'
          else 65533 :: fst (lead b) ++ decode (snd (lead b)) bs'
      end
  end.

Definition toString (b : Buffer) : jsstring := decode None b.

End Buffer.

(** ** The container *)

Definition encodedScript (p : Props) : jsstring :=
  Buffer.base64 (Buffer.from (fullScript p)).

Definition bootstrap_parts (encodedScript : jsstring) : template :=
  [Lit (lit "
          # Running as root initially
          export DEBIAN_FRONTEND=noninteractive
          
          # Install necessary packages if needed
          if command -v apt-get &>/dev/null; then
            apt-get update -qq >/dev/null 2>&1 || echo `Warning: apt-get update failed` >&2
            # Only install coreutils if timeout command is missing
            if ! command -v timeout &>/dev/null; then
              apt-get install -y --no-install-recommends coreutils >/dev/null 2>&1 || echo `Warning: coreutils installation failed` >&2
            fi
          fi
          
          # Create non-root user (without sudo privileges)
          if ! id activepieces &>/dev/null; then
            groupadd -g 1001 activepieces 2>/dev/null || true
            useradd -u 1001 -g 1001 -m -s /bin/bash activepieces 2>/dev/null || {
              # If UID 1001 is taken, find next available UID
              for uid in {1002..1010}; do
                if useradd -u $uid -g activepieces -m -s /bin/bash activepieces 2>/dev/null; then
                  break
                fi
              done
            }
          fi
          
          # Create workspace directory with proper permissions
          mkdir -p /workspace
          chown activepieces:activepieces /workspace
          
          # Decode the user script
          echo '");
   Sub encodedScript;
   Lit (lit "' | base64 -d > /tmp/user_script.sh
          chmod +x /tmp/user_script.sh
          chown activepieces:activepieces /tmp/user_script.sh
          
          # Execute the script (mount operations will be handled inside)
          bash /tmp/user_script.sh
        ")].

Definition bootstrap (p : Props) : jsstring :=
  render (bootstrap_parts (encodedScript p)).

Record HostConfig := {
  AutoRemove : bool;
  Memory : Z;
  CpuQuota : Z;
  CapAdd : list jsstring;
  SecurityOpt : list jsstring
}.

Record ContainerOptions := {
  Image : jsstring;
  Cmd : list jsstring;
  WorkingDir : jsstring;
  Host : HostConfig;
  AttachStdout : bool;
  AttachStderr : bool
}.

Definition containerOptions (p : Props) : ContainerOptions :=
  {| Image := imageName p;
     Cmd := [lit "bash"; lit "-c"; bootstrap p];
     WorkingDir := lit "/workspace";
     Host := {| AutoRemove := true;
                Memory := (512 * 1024 * 1024)%Z;
                CpuQuota := 50000%Z;
                CapAdd := [lit "SYS_ADMIN"];
                SecurityOpt := [lit "apparmor:unconfined"] |};
     AttachStdout := true;
     AttachStderr := true |}.

(** ** The handler of the attached stream

    [stream.on('data', ...)]: one call per chunk that the stream delivers. *)

Record Output := {
  stdout : jsstring;
  stderr : jsstring
}.

(** [chunk[0] === n]. *)
Definition first_is (chunk : Buffer.Buffer) (n : N) : bool :=
  match chunk with
  | b :: _ => b =? n
  | [] => false
  end.

Definition on_data (o : Output) (chunk : Buffer.Buffer) : Output :=
  let data := Buffer.toString chunk in
  if first_is chunk 1 then
    {| stdout := stdout o ++ slice 8 data; stderr := stderr o |}
  else if first_is chunk 2 then
    {| stdout := stdout o; stderr := stderr o ++ slice 8 data |}
  else
    {| stdout := stdout o ++ data; stderr := stderr o |}.

Definition collect (chunks : list Buffer.Buffer) : Output :=
  fold_left on_data chunks {| stdout := []; stderr := [] |}.

(** A frame of the multiplexed stream: the stream selector, three zero
    bytes, the payload length as a 32-bit big-endian number, the payload. *)
Definition frame (selector : N) (payload : Buffer.Buffer) : Buffer.Buffer :=
  let n := N.of_nat (List.length payload) in
  [selector; 0; 0; 0;
   (n / 16777216) mod 256; (n / 65536) mod 256; (n / 256) mod 256; n mod 256]
  ++ payload.

(** ** Errors, values and effects *)

Record Error := {
  message : option jsstring;
  statusCode : option Z
}.

(** [new Error(m)]. *)
Definition new_Error (m : jsstring) : Error :=
  {| message := Some m; statusCode := None |}.

Inductive value :=
| VBool (b : bool)
| VString (s : jsstring).

(** An object literal: its properties in the order written. *)
Definition object := list (string * value).

Fixpoint get (k : string) (o : object) : option value :=
  match o with
  | [] => None
  | (k', v) :: o' => if String.eqb k k' then Some v else get k o'
  end.

(** The calls made to the Docker client and to the timer. *)
Inductive call :=
| Inspect (image : jsstring)
| Pull (image : jsstring)
| FollowProgress
| CreateContainer (options : ContainerOptions)
| Attach
| Start
| SetTimeout (ms : Z)
| Wait
| Kill
| ClearTimeout.

(** How an awaited computation ends: it returns, it throws, or it never
    settles. *)
Inductive outcome (A : Type) :=
| Returned (a : A)
| Thrown (e : Error)
| Pending.

Arguments Returned {A} a.

Arguments Thrown {A} e.

Arguments Pending {A}.

Definition M (A : Type) : Type := (list call * outcome A)%type.

Definition ret {A} (a : A) : M A := ([], Returned a).

Definition throw {A} (e : Error) : M A := ([], Thrown e).

Definition bind {A B} (m : M A) (f : A -> M B) : M B :=
  match m with
  | (l, Returned a) => let (l', r) := f a in (l ++ l', r)
  | (l, Thrown e) => (l, Thrown e)
  | (l, Pending) => (l, Pending)
  end.

(** [try { m } catch (e) { h e }]. *)
Definition catch {A} (m : M A) (h : Error -> M A) : M A :=
  match m with
  | (l, Thrown e) => let (l', r) := h e in (l ++ l', r)
  | _ => m
  end.

(** [try { m } finally { c }] for a call [c] that cannot fail. *)
Definition finally {A} (m : M A) (c : call) : M A :=
  match m with
  | (l, Pending) => (l, Pending)
  | (l, r) => (l ++ [c], r)
  end.

(** A call to the daemon that resolves, or rejects with an error. *)
Definition request (c : call) (rejects : option Error) : M unit :=
  ([c], match rejects with
        | None => Returned tt
        | Some e => Thrown e
        end).

Notation "x <- m ;; k" := (bind m (fun x => k))
  (at level 61, m at next level, right associativity).

Notation "m ;; k" := (bind m (fun _ => k))
  (at level 61, right associativity).

(** ** The Docker daemon

    What the daemon and the container do during one invocation.  Times are
    milliseconds after the timer is armed. *)

Record Docker := {
  inspect : jsstring -> option Error;
  pull : jsstring -> option Error;
  followProgress : option Error;
  createContainer : ContainerOptions -> option Error;
  attach : option Error;
  start : option Error;
  (** the chunks the stream delivers, each with its time of delivery *)
  emitted : list (Z * Buffer.Buffer);
  (** when the script exits by itself, with its status code *)
  exits : option (Z * Z);
  kill : option Error;
  wait : option Error;
  (** [new Date().toISOString()] when the result is built *)
  now : jsstring
}.

(** ** The run *)

Definition resolveImage (p : Props) (d : Docker) : M unit :=
  catch (request (Inspect (imageName p)) (inspect d (imageName p)))
        (fun _ =>
           request (Pull (imageName p)) (pull d (imageName p)) ;;
           request FollowProgress (followProgress d)).

(** [(timeout || 30) * 1000], for a timeout that is a whole number of
    seconds. *)
Definition executionTimeout (p : Props) : Z :=
  (match timeout p with
   | None => 30
   | Some 0%Z => 30
   | Some t => t
   end * 1000)%Z.

(** The delay [setTimeout] really uses: a delay below 1 or above
    2147483647 is set to 1. *)
Definition timer_delay (ms : Z) : Z :=
  if ((ms <? 1) || (2147483647 <? ms))%Z then 1%Z else ms.

Definition delivered_until (t : Z) (inclusive : bool) (d : Docker)
  : list Buffer.Buffer :=
  map snd
    (filter (fun c => if inclusive then (fst c <=? t)%Z else (fst c <? t)%Z)
            (emitted d)).

(** The container between [start] and the settling of [container.wait()]:
    the chunks handled meanwhile.  The script exits by itself before the
    timer fires, or the timer fires and asks for the kill; a kill that fails
    is ignored by the handler and leaves the container running.

    The daemon says whether [container.wait()] rejects, not when: a rejected
    wait is taken to settle when a resolved one would, at the exit of the
    script or at the kill, and a kill takes no time. *)
Definition supervise (p : Props) (d : Docker) : M (list Buffer.Buffer) :=
  let deadline := timer_delay (executionTimeout p) in
  let settle := match wait d with
                | None => Returned tt
                | Some e => Thrown e
                end in
  let exited (t : Z) (l : list call) : M (list Buffer.Buffer) :=
    finally (l, settle) ClearTimeout ;; ret (delivered_until t true d) in
  match exits d with
  | Some (t, _) =>
      if (t <? deadline)%Z then exited t [Wait]
      else
        match kill d with
        | None =>
            finally ([Wait; Kill], settle) ClearTimeout ;;
            ret (delivered_until deadline false d)
        | Some _ => exited t [Wait; Kill]
        end
  | None =>
      match kill d with
      | None =>
          finally ([Wait; Kill], settle) ClearTimeout ;;
          ret (delivered_until deadline false d)
      | Some _ => ([Wait; Kill], Pending)
      end
  end.

Definition socket_error : Error :=
  new_Error (lit "Docker socket not found. Please ensure Docker is running and the socket is mounted with -v /var/run/docker.sock:/var/run/docker.sock").

Definition image_error (p : Props) : Error :=
  new_Error (lit "Docker image " ++ imageName p
             ++ lit " not found and could not be pulled. Please check your internet connection.").

Definition message_includes (e : Error) (s : jsstring) : bool :=
  match message e with
  | Some m => includes s m
  | None => false
  end.

Definition status_is (e : Error) (n : Z) : bool :=
  match statusCode e with
  | Some c => (c =? n)%Z
  | None => false
  end.

(** The outer [catch] block. *)
Definition rethrow (p : Props) (e : Error) : M object :=
  if message_includes e (lit "connect ENOENT") then throw socket_error
  else if status_is e 404 then throw (image_error p)
  else throw e.

Definition result (o : Output) (d : Docker) : object :=
  [("success", VBool true);
   ("output", VString (stdout o));
   ("stdout", VString (stdout o));
   ("stderr", VString (stderr o));
   ("executionTime", VString (now d))]%string.

Definition run (p : Props) (d : Docker) : M object :=
  catch
    (resolveImage p d ;;
     request (CreateContainer (containerOptions p))
             (createContainer d (containerOptions p)) ;;
     request Attach (attach d) ;;
     request Start (start d) ;;
     ([SetTimeout (executionTimeout p)], Returned tt) ;;
     chunks <- supervise p d ;;
     ret (result (collect chunks) d))
    (rethrow p).

(** * Notions used in the properties *)

(** ** Requests *)

(** The request with another mount type. *)
Definition with_type (k : string) (p : Props) : Props :=
  {| command := command p;
     mountType := Some (lit k);
     mountSource := mountSource p;
     mountPoint := mountPoint p;
     mountOptions := mountOptions p;
     mountUsername := mountUsername p;
     mountPassword := mountPassword p;
     dockerImage := dockerImage p;
     timeout := timeout p;
     runAsRoot := runAsRoot p |}.

(** The request with other credentials. *)
Definition with_credentials (u pw : option jsstring) (p : Props) : Props :=
  {| command := command p;
     mountType := mountType p;
     mountSource := mountSource p;
     mountPoint := mountPoint p;
     mountOptions := mountOptions p;
     mountUsername := u;
     mountPassword := pw;
     dockerImage := dockerImage p;
     timeout := timeout p;
     runAsRoot := runAsRoot p |}.

(** A request with only a command. *)
Definition just (c : jsstring) : Props :=
  {| command := c;
     mountType := None;
     mountSource := None;
     mountPoint := None;
     mountOptions := None;
     mountUsername := None;
     mountPassword := None;
     dockerImage := None;
     timeout := None;
     runAsRoot := None |}.

(** ** The mount command *)

(** The credential options the program adds to the options of a CIFS
    mount. *)
Definition credentials (p : Props) : jsstring :=
  if truthy (mountUsername p) then
    lit ",username=" ++ show (mountUsername p)
    ++ (if truthy (mountPassword p)
        then lit ",password=" ++ show (mountPassword p)
        else [])
  else [].

Definition target (p : Props) : jsstring :=
  lit " " ++ show (mountSource p) ++ lit " " ++ show (mountPoint p).

Definition smb_share : Props :=
  {| command := lit "ls /mnt/network";
     mountType := Some (lit "smb");
     mountSource := Some (lit "//server.local/share");
     mountPoint := Some (lit "/mnt/network");
     mountOptions := None;
     mountUsername := Some (lit "myuser");
     mountPassword := Some (lit "secret");
     dockerImage := None;
     timeout := Some 30%Z;
     runAsRoot := Some false |}.

Definition smb_password_only : Props :=
  {| command := lit "ls /mnt/network";
     mountType := Some (lit "smb");
     mountSource := Some (lit "//server.local/share");
     mountPoint := Some (lit "/mnt/network");
     mountOptions := Some (lit "ro");
     mountUsername := None;
     mountPassword := Some (lit "secret");
     dockerImage := None;
     timeout := None;
     runAsRoot := None |}.

(** ** The cleaned command *)




(** ** The order of the stages *)

(** The fragments [fs] occur in [s] one after the other, without overlap. *)
Fixpoint in_order (fs : list jsstring) (s : jsstring) : Prop :=
  match fs with
  | [] => True
  | f :: fs' => exists a b, s = a ++ f ++ b /\ in_order fs' b
  end.

(** What follows the first occurrence of the fragment [f] in [s]. *)
Fixpoint text_after (f s : jsstring) : option jsstring :=
  if startsWith f s then Some (skipn (List.length f) s)
  else
    match s with
    | [] => None
    | _ :: s' => text_after f s'
    end.

(** The fragments [fs] are found in [s] one after the other, each at its
    first occurrence after the one before. *)
Fixpoint found_in_order (fs : list jsstring) (s : jsstring) : bool :=
  match fs with
  | [] => true
  | f :: fs' =>
      match text_after f s with
      | Some b => found_in_order fs' b
      | None => false
      end
  end.

(** The unmount attempt of the composed script. *)
Definition unmount_text (p : Props) : jsstring :=
  lit "umount " ++ show (mountPoint p) ++ lit " 2>/dev/null || true".

Definition nfs_failing_script : Props :=
  {| command := lit "#!/bin/bash" ++ nl ++ lit "ls /mnt/network" ++ nl
                ++ lit "exit 7" ++ nl;
     mountType := Some (lit "nfs");
     mountSource := Some (lit "server.local:/exports/data");
     mountPoint := Some (lit "/mnt/network");
     mountOptions := Some (lit "rw,sync");
     mountUsername := None;
     mountPassword := None;
     dockerImage := Some (lit "ubuntu:latest");
     timeout := Some 30%Z;
     runAsRoot := Some false |}.

(** ** The unprivileged identity *)

(** The block that runs the cleaned command as [activepieces]. *)
Definition user_block (p : Props) : jsstring :=
  lit "su - activepieces << 'EOF'
cd /workspace
" ++ cleanedCommand p ++ lit "
EOF
".

Fixpoint lines (s : jsstring) : list jsstring :=
  match s with
  | [] => [[]]
  | c :: s' =>
      if c =? 10 then [] :: lines s'
      else
        match lines s' with
        | l :: ls => (c :: l) :: ls
        | [] => [[c]]
        end
  end.

(** A shell comment line: its first unit after the indentation is [#]. *)
Definition is_comment (l : jsstring) : bool :=
  first_is (dropWhile (fun c => c =? 32) l) 35.

(** A search for two words in a text: the text does not name the sudoers
    file and names [sudo] in comment lines only.  It says nothing else about
    what the text does. *)
Definition sudo_in_comments_only (s : jsstring) : bool :=
  negb (includes (lit "sudoers") s)
  && forallb (fun l => implb (includes (lit "sudo") l) (is_comment l))
             (lines s).

(** ** How the shell reads a script with here-documents

    The shell that runs a script takes its lines as its own commands, but for
    the lines of a here-document: after a command line with the redirection
    [<< 'EOF'], the lines up to the first line that is exactly [EOF] are the
    input of the command of that line, and the shell goes on with the line
    after it.  [read_script] gives the lines the shell runs itself and the
    lines that are handed to the commands as here-documents.  This is the
    shell's rule for the one form of here-document that the composed script
    uses, not code of the action. *)
Fixpoint read_script (in_document : bool) (ls : list jsstring)
  : list jsstring * list jsstring :=
  match ls with
  | [] => ([], [])
  | l :: ls' =>
      if in_document then
        if JS.eqb l (lit "EOF") then read_script false ls'
        else
          let (own, document) := read_script true ls' in
          (own, l :: document)
      else
        let (own, document) :=
          read_script (negb (is_comment l) && includes (lit "<< 'EOF'") l)
                      ls' in
        (l :: own, document)
  end.

(** The lines of the script that the shell running it executes itself. *)
Definition own_commands (script : jsstring) : list jsstring :=
  fst (read_script false (lines script)).

(** The lines that the script hands to [su - activepieces]. *)
Definition user_commands (script : jsstring) : list jsstring :=
  snd (read_script false (lines script)).

(** A command with a line that is the delimiter of the here-document. *)
Definition escaping : Props :=
  just (lit "echo user" ++ nl ++ lit "EOF" ++ nl ++ lit "id").

(** ** How the run ends *)

(** What the outer [catch] block throws for the error it caught. *)
Definition raised (p : Props) (e : Error) : Error :=
  if message_includes e (lit "connect ENOENT") then socket_error
  else if status_is e 404 then image_error p
  else e.

(** The error that stops the run before the container is started, if any:
    a failed inspect leads to a pull and is not one. *)
Definition image_failure (p : Props) (d : Docker) : option Error :=
  match inspect d (imageName p) with
  | None => None
  | Some _ =>
      match pull d (imageName p) with
      | Some e => Some e
      | None => followProgress d
      end
  end.

Definition startup_failure (p : Props) (d : Docker) : option Error :=
  match image_failure p d with
  | Some e => Some e
  | None =>
      match createContainer d (containerOptions p) with
      | Some e => Some e
      | None =>
          match attach d with
          | Some e => Some e
          | None => start d
          end
      end
  end.

Definition startup_calls (p : Props) (d : Docker) : list call :=
  Inspect (imageName p)
  :: match inspect d (imageName p) with
     | None => []
     | Some _ => [Pull (imageName p); FollowProgress]
     end
  ++ [CreateContainer (containerOptions p); Attach; Start].

(** ** The supervision *)

Definition deadline (p : Props) : Z := timer_delay (executionTimeout p).

(** The timer fires before the script exits. *)
Definition timed_out (p : Props) (d : Docker) : Prop :=
  match exits d with
  | Some (t, _) => (deadline p <= t)%Z
  | None => True
  end.

(** A daemon on which every call succeeds, for a container that writes
    [chunks] and whose script exits as [exit] says. *)
Definition daemon (chunks : list (Z * Buffer.Buffer)) (exit : option (Z * Z))
  : Docker :=
  {| inspect := fun _ => None;
     pull := fun _ => None;
     followProgress := None;
     createContainer := fun _ => None;
     attach := None;
     start := None;
     emitted := chunks;
     exits := exit;
     kill := None;
     wait := None;
     now := lit "2025-01-01T00:00:00.000Z" |}.

Definition zero_timeout : Props :=
  {| command := lit "sleep 60";
     mountType := None;
     mountSource := None;
     mountPoint := None;
     mountOptions := None;
     mountUsername := None;
     mountPassword := None;
     dockerImage := None;
     timeout := Some 0%Z;
     runAsRoot := None |}.

(** ** A script that outlives its timeout *)

Definition sleeper : Props :=
  {| command := lit "echo tick; sleep 60";
     mountType := None;
     mountSource := None;
     mountPoint := None;
     mountOptions := None;
     mountUsername := None;
     mountPassword := None;
     dockerImage := None;
     timeout := Some 1%Z;
     runAsRoot := None |}.

Definition sleeping : Docker :=
  daemon [(20%Z, frame 1 (lit "tick"))] (Some (60020, 0)%Z).

(** ** Failures of the daemon *)

(** [container.wait()] settles unless the script never exits and the kill
    fails. *)
Definition wait_settles (d : Docker) : bool :=
  match exits d, kill d with
  | None, Some _ => false
  | _, _ => true
  end.

(** The first failure of a call that the run awaits. *)
Definition failure (p : Props) (d : Docker) : option Error :=
  match startup_failure p d with
  | Some e => Some e
  | None => if wait_settles d then wait d else None
  end.

Definition disk_full : Error :=
  {| message := Some (lit "(HTTP code 500) server error - no space left on device");
     statusCode := Some 500%Z |}.

Definition no_space : Docker :=
  {| inspect := fun _ => None;
     pull := fun _ => None;
     followProgress := None;
     createContainer := fun _ => Some disk_full;
     attach := None;
     start := None;
     emitted := [];
     exits := Some (100, 0)%Z;
     kill := None;
     wait := None;
     now := lit "2025-01-01T00:00:00.000Z" |}.

(** ** Whole frames *)

Definition collect_from (o : Output) (chunks : list Buffer.Buffer) : Output :=
  fold_left on_data chunks o.

(** The payloads of the frames with a given selector, as text. *)
Definition payloads (selector : N) (frames : list (N * Buffer.Buffer))
  : jsstring :=
  flat_map (fun f => if fst f =? selector then Buffer.toString (snd f) else [])
           frames.

(** ** Requests without a part, daemons with another status *)

(** The request without its mount properties. *)
Definition without_mount (p : Props) : Props :=
  {| command := command p;
     mountType := None;
     mountSource := None;
     mountPoint := None;
     mountOptions := None;
     mountUsername := None;
     mountPassword := None;
     dockerImage := dockerImage p;
     timeout := timeout p;
     runAsRoot := runAsRoot p |}.

(** The daemon whose container exits at the same time with another status
    code. *)
Definition with_status (code : Z) (d : Docker) : Docker :=
  {| inspect := inspect d;
     pull := pull d;
     followProgress := followProgress d;
     createContainer := createContainer d;
     attach := attach d;
     start := start d;
     emitted := emitted d;
     exits := match exits d with
              | Some (t, _) => Some (t, code)
              | None => None
              end;
     kill := kill d;
     wait := wait d;
     now := now d |}.

(** The block that runs the cleaned command as root. *)
Definition root_block (p : Props) : jsstring :=
  lit "# Execute command as root
cd /workspace
" ++ cleanedCommand p ++ nl.

(** ** Decoding in the container

    [base64 -d], which the bootstrap command applies to the encoded script:
    four digits give three bytes, the padding [=] ends the data. *)

Fixpoint index_of (c : N) (l : jsstring) : N :=
  match l with
  | [] => 0
  | x :: l' => if x =? c then 0 else 1 + index_of c l'
  end.

Definition undigit (c : N) : N := index_of c Buffer.alphabet.

Fixpoint base64_decode (s : jsstring) : Buffer.Buffer :=
  match s with
  | a :: b :: c :: d :: rest =>
      let b1 := undigit a * 4 + undigit b / 16 in
      let b2 := (undigit b mod 16) * 16 + undigit c / 4 in
      let b3 := (undigit c mod 4) * 64 + undigit d in
      if c =? 61 then [b1]
      else if d =? 61 then [b1; b2]
      else b1 :: b2 :: b3 :: base64_decode rest
  | _ => []
  end.

(** A buffer holds bytes. *)
Definition bytes (b : Buffer.Buffer) : Prop := Forall (fun x => x < 256) b.

(** A unit of base64 text: a digit of the alphabet or the padding. *)
Definition is_base64 (c : N) : bool :=
  existsb (N.eqb c) Buffer.alphabet || (c =? 61).

(** A code unit that is a character of its own: below 65536 and not a
    surrogate. *)
Definition is_scalar (c : N) : bool :=
  (c <? 55296) || ((57343 <? c) && (c <? 65536)).

(** The calls that concern the container. *)
Definition container_call (c : call) : bool :=
  match c with
  | Inspect _ | Pull _ | FollowProgress => false
  | _ => true
  end.

(** ** Requests used below *)

Definition nfs_without_source : Props :=
  {| command := lit "ls";
     mountType := Some (lit "nfs");
     mountSource := None;
     mountPoint := Some (lit "/mnt/network");
     mountOptions := Some (lit "ro");
     mountUsername := None;
     mountPassword := None;
     dockerImage := None;
     timeout := None;
     runAsRoot := None |}.

Definition as_root : Props :=
  {| command := lit "#!/bin/bash" ++ nl ++ lit "whoami" ++ nl;
     mountType := Some (lit "nfs");
     mountSource := Some (lit "server.local:/exports/data");
     mountPoint := Some (lit "/mnt/network");
     mountOptions := None;
     mountUsername := None;
     mountPassword := None;
     dockerImage := None;
     timeout := Some 30%Z;
     runAsRoot := Some true |}.

Definition webdav_share : Props :=
  {| command := lit "ls /mnt/network";
     mountType := Some (lit "webdav");
     mountSource := Some (lit "https://server.local/dav");
     mountPoint := Some (lit "/mnt/network");
     mountOptions := None;
     mountUsername := None;
     mountPassword := None;
     dockerImage := None;
     timeout := None;
     runAsRoot := None |}.

(** ** Daemons used below *)

Definition unknown_image : Error :=
  {| message := Some (lit "(HTTP code 404) unexpected - pull access denied for nosuchimage");
     statusCode := Some 404%Z |}.

(** A daemon that has not the image and cannot pull it. *)
Definition without_image : Docker :=
  {| inspect := fun _ => Some unknown_image;
     pull := fun _ => Some unknown_image;
     followProgress := None;
     createContainer := fun _ => None;
     attach := None;
     start := None;
     emitted := [];
     exits := Some (100, 0)%Z;
     kill := None;
     wait := None;
     now := lit "2025-01-01T00:00:00.000Z" |}.

Definition already_stopped : Error :=
  {| message := Some (lit "(HTTP code 409) unexpected - container is not running");
     statusCode := Some 409%Z |}.

(** A daemon that refuses the kill, for a container that writes [chunks]
    and whose script exits as [exit] says. *)
Definition unkillable (chunks : list (Z * Buffer.Buffer))
  (exit : option (Z * Z)) : Docker :=
  {| inspect := fun _ => None;
     pull := fun _ => None;
     followProgress := None;
     createContainer := fun _ => None;
     attach := None;
     start := None;
     emitted := chunks;
     exits := exit;
     kill := Some already_stopped;
     wait := None;
     now := lit "2025-01-01T00:00:00.000Z" |}.

(** The calls of a run whose container was started and whose wait has
    settled: the kill is there when the timer fired. *)
Definition settled_calls (p : Props) (d : Docker) (killed : bool)
  : list call :=
  startup_calls p d
  ++ [SetTimeout (executionTimeout p); Wait]
  ++ (if killed then [Kill] else [])
  ++ [ClearTimeout].

(** The script exits by itself before the timer fires. *)
Definition exits_in_time (p : Props) (d : Docker) : bool :=
  match exits d with
  | Some (t, _) => (t <? deadline p)%Z
  | None => false
  end.

(** * The direct action

    [runBashCommand.run] (src/actions/run-bash-command.ts): the command runs
    on the host, through [execAsync], between a mount and an unmount.  The
    host is an explicit parameter of [run]. *)

Module Direct.

Record Props := {
  command : jsstring;
  mountType : option jsstring;
  mountSource : option jsstring;
  mountPoint : option jsstring;
  mountOptions : option jsstring;
  mountUsername : option jsstring;
  mountPassword : option jsstring;
  workingDirectory : option jsstring;
  timeout : option Z;
  captureOutput : option bool
}.

(** The values of the properties of a result. *)
Inductive value :=
| JBool (b : bool)
| JString (s : jsstring)
| JNumber (n : Z)
| JUndefined.

Definition object := list (string * value).

Fixpoint get (k : string) (o : object) : option value :=
  match o with
  | [] => None
  | (k', v) :: o' => if String.eqb k k' then Some v else get k o'
  end.

Definition truthy_value (v : value) : bool :=
  match v with
  | JBool b => b
  | JString (_ :: _) => true
  | JString [] => false
  | JNumber n => negb (n =? 0)%Z
  | JUndefined => false
  end.

(** [v || d]. *)
Definition or_value (v d : value) : value :=
  if truthy_value v then v else d.

(** What [mkdirSync] throws or [execAsync] rejects with: an error with its
    message and code and, from [exec], the output of the child. *)
Record Failure := {
  message : value;
  stdout : value;
  stderr : value;
  code : value
}.

Record ExecOptions := {
  timeout_ms : Z;
  maxBuffer : Z;
  shell : jsstring
}.

Inductive call :=
| ExistsSync (path : option jsstring)
| MkdirSync (path : option jsstring)
| Exec (command : jsstring) (options : option ExecOptions).

(** How an awaited call ends. *)
Inductive attempt (A : Type) :=
| Done (a : A)
| Failed (f : Failure)
| Never.

Arguments Done {A} a.
Arguments Failed {A} f.
Arguments Never {A}.

(** What the host does during one invocation: the answers of the two
    [existsSync] calls and of the [mkdirSync] calls that may follow them, and
    how the command and the unmount end. *)
Record Host := {
  wd_exists : bool;
  wd_mkdir : option Failure;
  mp_exists : bool;
  mp_mkdir : option Failure;
  exec : jsstring -> ExecOptions -> attempt (jsstring * jsstring);
  unmount : jsstring -> attempt (jsstring * jsstring);
  now : jsstring
}.

(** A computation reads and writes the variable [mountCleanup], logs its
    calls and returns, throws or never settles. *)
Inductive outcome (A : Type) :=
| Returned (a : A)
| Thrown (f : Failure)
| Pending.

Arguments Returned {A} a.
Arguments Thrown {A} f.
Arguments Pending {A}.

Definition M (A : Type) : Type :=
  jsstring -> list call * jsstring * outcome A.

Definition ret {A} (a : A) : M A := fun s => ([], s, Returned a).

Definition bind {A B} (m : M A) (f : A -> M B) : M B :=
  fun s =>
    match m s with
    | (l, s', Returned a) =>
        match f a s' with
        | (l', s'', r) => (l ++ l', s'', r)
        end
    | (l, s', Thrown e) => (l, s', Thrown e)
    | (l, s', Pending) => (l, s', Pending)
    end.

Definition catch {A} (m : M A) (h : Failure -> M A) : M A :=
  fun s =>
    match m s with
    | (l, s', Thrown e) =>
        match h e s' with
        | (l', s'', r) => (l ++ l', s'', r)
        end
    | r => r
    end.

Definition assign (v : jsstring) : M unit := fun _ => ([], v, Returned tt).

Definition read : M jsstring := fun s => ([], s, Returned s).

Definition await {A} (c : call) (a : attempt A) : M A :=
  fun s =>
    ([c], s, match a with
             | Done x => Returned x
             | Failed f => Thrown f
             | Never => Pending
             end).

Declare Scope direct_scope.

Notation "x <- m ;; k" := (bind m (fun x => k))
  (at level 61, m at next level, right associativity) : direct_scope.
Notation "m ;; k" := (bind m (fun _ => k))
  (at level 61, right associativity) : direct_scope.

Local Open Scope direct_scope.

Definition is_type (p : Props) (k : string) : bool :=
  match mountType p with
  | Some s => JS.eqb s (lit k)
  | None => false
  end.

Definition mount_requested (p : Props) : bool :=
  truthy (mountType p) && truthy (mountSource p).

Definition nfsOptions (p : Props) : template :=
  [or_default (mountOptions p) (lit "rw,sync")].

Definition smbOptions (p : Props) : template :=
  let smbOptions := [or_default (mountOptions p) (lit "rw")] in
  if truthy (mountUsername p) then
    let smbOptions :=
      smbOptions ++ [Lit (lit ",username="); Sub (show (mountUsername p))] in
    if truthy (mountPassword p) then
      smbOptions ++ [Lit (lit ",password="); Sub (show (mountPassword p))]
    else smbOptions
  else smbOptions.

Definition mountCommand (p : Props) : template :=
  if is_type p "nfs" then
    [Lit (lit "mount -t nfs -o ")] ++ nfsOptions p
    ++ [Lit (lit " "); Sub (show (mountSource p));
        Lit (lit " "); Sub (show (mountPoint p))]
  else if is_type p "smb" then
    [Lit (lit "mount -t cifs -o ")] ++ smbOptions p
    ++ [Lit (lit " "); Sub (show (mountSource p));
        Lit (lit " "); Sub (show (mountPoint p))]
  else [].

Definition mountCleanup (p : Props) : jsstring :=
  lit "umount " ++ show (mountPoint p) ++ lit " 2>/dev/null || true".

Definition mounted_command (p : Props) : template :=
  [Lit (lit "
          # Mount network drive
          ")]
  ++ mountCommand p
  ++ [Lit (lit "
          
          # Execute user command
          cd ");
      Sub (show (workingDirectory p));
      Lit (lit "
          ");
      Sub (command p);
      Lit (lit "
          
          # Cleanup will happen in finally block
        ")].

Definition plain_command (p : Props) : template :=
  [Lit (lit "cd "); Sub (show (workingDirectory p)); Lit (lit " && ");
   Sub (command p)].

Definition fullCommand (p : Props) : jsstring :=
  render (if mount_requested p then mounted_command p else plain_command p).

Definition options (p : Props) : ExecOptions :=
  {| timeout_ms := (match timeout p with
                    | None => 30
                    | Some 0%Z => 30
                    | Some t => t
                    end * 1000)%Z;
     maxBuffer := (10 * 1024 * 1024)%Z;
     shell := lit "/bin/bash" |}.

(** [if (!existsSync(path)) mkdirSync(path, { recursive: true })]. *)
Definition ensure (path : option jsstring) (there : bool)
  (mkdir : option Failure) : M unit :=
  e <- await (ExistsSync path) (Done there) ;;
  if e then ret tt
  else await (MkdirSync path)
             (match mkdir with
              | None => Done tt
              | Some f => Failed f
              end).

(** [if (mountCleanup) { try { await execAsync(mountCleanup) } catch (e) {} }]. *)
Definition clean_up (h : Host) : M unit :=
  c <- read ;;
  if truthy (Some c) then
    catch (await (Exec c None) (unmount h c) ;; ret tt) (fun _ => ret tt)
  else ret tt.

Definition success (p : Props) (h : Host) (out err : jsstring) : object :=
  if truthy_flag (captureOutput p) then
    [("success", JBool true);
     ("output", or_value (JString out) (JString []));
     ("stdout", or_value (JString out) (JString []));
     ("stderr", or_value (JString err) (JString []));
     ("executionTime", JString (now h))]%string
  else
    [("success", JBool true);
     ("output", or_value (JString out) (JString []));
     ("executionTime", JString (now h))]%string.

Definition failed (h : Host) (error : Failure) : object :=
  [("success", JBool false);
   ("error", message error);
   ("stdout", or_value (stdout error) (JString []));
   ("stderr", or_value (stderr error) (JString []));
   ("code", or_value (code error) (JNumber 1));
   ("executionTime", JString (now h))]%string.

(** The [try] block. *)
Definition attempt_run (p : Props) (h : Host) : M object :=
  ensure (workingDirectory p) (wd_exists h) (wd_mkdir h) ;;
  (if mount_requested p then
     ensure (mountPoint p) (mp_exists h) (mp_mkdir h) ;;
     assign (mountCleanup p)
   else ret tt) ;;
  r <- await (Exec (fullCommand p) (Some (options p)))
             (exec h (fullCommand p) (options p)) ;;
  clean_up h ;;
  ret (success p h (fst r) (snd r)).

(** The [catch] block. *)
Definition recover (h : Host) (error : Failure) : M object :=
  clean_up h ;;
  ret (failed h error).

(** [let mountCleanup = ''; try { ... } catch (error) { ... }]. *)
Definition run (p : Props) (h : Host) : list call * outcome object :=
  match catch (attempt_run p h) (recover h) [] with
  | (l, _, r) => (l, r)
  end.

(** ** Notions used in the properties of the direct action *)

(** The failure that the [catch] block receives, if any. *)
Definition failure (p : Props) (h : Host) : option Failure :=
  match (if wd_exists h then None else wd_mkdir h) with
  | Some f => Some f
  | None =>
      match (if mount_requested p && negb (mp_exists h)
             then mp_mkdir h else None) with
      | Some f => Some f
      | None =>
          match exec h (fullCommand p) (options p) with
          | Failed f => Some f
          | _ => None
          end
      end
  end.

(** The command is reached: the directories are there or could be made. *)
Definition reaches_exec (p : Props) (h : Host) : bool :=
  match (if wd_exists h then None else wd_mkdir h) with
  | Some _ => false
  | None =>
      match (if mount_requested p && negb (mp_exists h)
             then mp_mkdir h else None) with
      | Some _ => false
      | None => true
      end
  end.

(** The command and, when it runs, the unmount come to an end. *)
Definition settles (p : Props) (h : Host) : bool :=
  if reaches_exec p h then
    match exec h (fullCommand p) (options p) with
    | Never => false
    | _ =>
        if mount_requested p then
          match unmount h (mountCleanup p) with
          | Never => false
          | _ => true
          end
        else true
    end
  else true.

Definition is_unmount (p : Props) (c : call) : bool :=
  match c with
  | Exec text None => JS.eqb text (mountCleanup p)
  | _ => false
  end.

(** The command comes to an end. *)
Definition exec_ends (p : Props) (h : Host) : bool :=
  match exec h (fullCommand p) (options p) with
  | Never => false
  | _ => true
  end.

(** The host with another end of the unmount. *)
Definition with_unmount (u : attempt (jsstring * jsstring)) (h : Host)
  : Host :=
  {| wd_exists := wd_exists h;
     wd_mkdir := wd_mkdir h;
     mp_exists := mp_exists h;
     mp_mkdir := mp_mkdir h;
     exec := exec h;
     unmount := fun _ => u;
     now := now h |}.

(** A host where the directories exist, the command ends as [result] says
    and the unmount succeeds. *)
Definition host (result : attempt (jsstring * jsstring)) : Host :=
  {| wd_exists := true;
     wd_mkdir := None;
     mp_exists := true;
     mp_mkdir := None;
     exec := fun _ _ => result;
     unmount := fun _ => Done ([], []);
     now := lit "2025-01-01T00:00:00.000Z" |}.

Definition exit_2 : Failure :=
  {| message := JString (lit "Command failed: cd /tmp && ls /nowhere");
     stdout := JString [];
     stderr := JString (lit "ls: cannot access '/nowhere': No such file or directory");
     code := JNumber 2 |}.

Definition killed_by_timeout : Failure :=
  {| message := JString (lit "Command failed: cd /tmp && sleep 60");
     stdout := JString [];
     stderr := JString [];
     code := JUndefined |}.

Definition list_share : Props :=
  {| command := lit "#!/bin/bash" ++ nl ++ lit "ls /mnt/network";
     mountType := Some (lit "smb");
     mountSource := Some (lit "//server.local/share");
     mountPoint := Some (lit "/mnt/network");
     mountOptions := None;
     mountUsername := Some (lit "myuser");
     mountPassword := Some (lit "secret");
     workingDirectory := Some (lit "/tmp");
     timeout := None;
     captureOutput := None |}.

End Direct.


(** * Properties *)

(** ** Examples of cleaned commands *)

Example clean_plain :
  cleanCommand (lit "#!/bin/bash" ++ nl ++ lit "echo hi" ++ nl) = lit "echo hi".
Proof. reflexivity. Qed.

Example clean_after_blank_line :
  cleanCommand (nl ++ lit "#!/bin/bash" ++ nl ++ lit "id" ++ nl)
  = lit "#!/bin/bash" ++ nl ++ lit "id".
Proof. reflexivity. Qed.

Example clean_two_directives :
  cleanCommand (lit "#!/bin/bash" ++ nl ++ lit "#!/bin/sh" ++ nl ++ lit "ls")
  = lit "#!/bin/sh" ++ nl ++ lit "ls".
Proof. reflexivity. Qed.

(** ** Examples of encodings *)

Example base64_Man : Buffer.base64 (Buffer.from (lit "Man")) = lit "TWFu".
Proof. reflexivity. Qed.

Example base64_Ma : Buffer.base64 (Buffer.from (lit "Ma")) = lit "TWE=".
Proof. reflexivity. Qed.

Example base64_M : Buffer.base64 (Buffer.from (lit "M")) = lit "TQ==".
Proof. reflexivity. Qed.

Example utf8_e_acute : Buffer.from [233] = [195; 169].
Proof. reflexivity. Qed.

Example utf8_decode_e_acute : Buffer.toString [104; 195; 169; 33] = [104; 233; 33].
Proof. reflexivity. Qed.

Example utf8_decode_truncated : Buffer.toString [104; 195] = [104; 65533].
Proof. reflexivity. Qed.

Example utf8_roundtrip_astral :
  Buffer.toString (Buffer.from [55357; 56832]) = [55357; 56832].
Proof. reflexivity. Qed.

(** ** Strings and templates *)

Lemma eqb_eq (a b : jsstring) : JS.eqb a b = true <-> a = b.
Proof.
  unfold JS.eqb. destruct (list_eq_dec N.eq_dec a b); split; congruence.
Qed.

Lemma render_app (s t : template) : render (s ++ t) = render s ++ render t.
Proof. apply flat_map_app. Qed.

Lemma literals_app (s t : template) :
  literals (s ++ t) = literals s ++ literals t.
Proof. apply flat_map_app. Qed.

Lemma is_type_eq (p : Props) (k : string) :
  is_type p k = true <-> mountType p = Some (lit k).
Proof.
  unfold is_type. destruct (mountType p) as [s|].
  - rewrite eqb_eq. split; congruence.
  - split; discriminate.
Qed.

Lemma startsWith_app (p s : jsstring) : startsWith p (p ++ s) = true.
Proof.
  induction p as [|c p IH]; simpl; [reflexivity|].
  now rewrite N.eqb_refl, IH.
Qed.

(** ** The mount command *)

Lemma nfs_command (p : Props) :
  mountType p = Some (lit "nfs") ->
  render (mountCommand p)
  = lit "mount -t nfs -o "
    ++ (if truthy (mountOptions p) then show (mountOptions p)
        else lit "rw,sync")
    ++ target p.
Proof.
  intros H. apply is_type_eq in H. unfold mountCommand, nfsOptions, or_default.
  rewrite H. destruct (truthy (mountOptions p)); cbn [render flat_map text_of app];
    unfold target; now rewrite ?app_nil_r, <- ?app_assoc.
Qed.

Lemma smb_command (p : Props) :
  mountType p = Some (lit "smb") ->
  render (mountCommand p)
  = lit "mount -t cifs -o "
    ++ (if truthy (mountOptions p) then show (mountOptions p) else lit "rw")
    ++ credentials p ++ target p.
Proof.
  intros H.
  assert (Hn : is_type p "nfs" = false).
  { unfold is_type. rewrite H. reflexivity. }
  apply is_type_eq in H.
  unfold mountCommand, smbOptions, or_default, credentials.
  rewrite Hn, H.
  destruct (truthy (mountOptions p)), (truthy (mountUsername p)),
    (truthy (mountPassword p));
    cbn [render flat_map text_of app]; unfold target;
    now rewrite ?app_nil_r, <- ?app_assoc.
Qed.

(** C8: with no mount options in the request, the NFS mount command uses
    [rw,sync] and the CIFS mount command uses [rw]; the [username=] and
    [password=] options are added to the CIFS command only: the NFS command
    of a request, whatever its options, is the same with any credentials. *)
Theorem C8_default_options_and_credentials (p : Props) :
  truthy (mountOptions p) = false ->
  render (mountCommand (with_type "nfs" p))
  = lit "mount -t nfs -o rw,sync" ++ target p
  /\ render (mountCommand (with_type "smb" p))
     = lit "mount -t cifs -o rw" ++ credentials p ++ target p
  /\ forall (q : Props) (u pw : option jsstring),
       mountType q = Some (lit "nfs") ->
       render (mountCommand (with_credentials u pw q))
       = render (mountCommand q).
Proof.
  intros H. split; [|split].
  - rewrite nfs_command by reflexivity. cbn [with_type mountOptions].
    rewrite H. change (target (with_type "nfs" p)) with (target p).
    change (lit "mount -t nfs -o rw,sync")
      with (lit "mount -t nfs -o " ++ lit "rw,sync").
    now rewrite <- app_assoc.
  - rewrite smb_command by reflexivity. cbn [with_type mountOptions].
    rewrite H. change (target (with_type "smb" p)) with (target p).
    change (credentials (with_type "smb" p)) with (credentials p).
    change (lit "mount -t cifs -o rw")
      with (lit "mount -t cifs -o " ++ lit "rw").
    now rewrite <- app_assoc.
  - intros q u pw Hq. now rewrite !nfs_command by exact Hq.
Qed.

Lemma C8_witness :
  render (mountCommand (with_type "nfs" smb_share))
  = lit "mount -t nfs -o rw,sync //server.local/share /mnt/network"
  /\ render (mountCommand (with_type "smb" smb_share))
     = lit "mount -t cifs -o rw,username=myuser,password=secret //server.local/share /mnt/network"
  /\ forall (q : Props) (u pw : option jsstring),
       mountType q = Some (lit "nfs") ->
       render (mountCommand (with_credentials u pw q))
       = render (mountCommand q).
Proof.
  exact (C8_default_options_and_credentials smb_share eq_refl).
Defined.

(** C9: a CIFS request without a username gets a mount command without
    credential options, whatever its password. *)
Theorem C9_password_needs_username (p : Props) :
  mountType p = Some (lit "smb") ->
  truthy (mountUsername p) = false ->
  credentials p = []
  /\ render (mountCommand p)
     = lit "mount -t cifs -o "
       ++ (if truthy (mountOptions p) then show (mountOptions p)
           else lit "rw")
       ++ target p.
Proof.
  intros Ht Hu.
  assert (Hc : credentials p = []) by (unfold credentials; now rewrite Hu).
  split; [exact Hc|]. rewrite smb_command by exact Ht. now rewrite Hc.
Qed.

Lemma C9_witness :
  credentials smb_password_only = []
  /\ render (mountCommand smb_password_only)
     = lit "mount -t cifs -o ro //server.local/share /mnt/network".
Proof.
  exact (C9_password_needs_username smb_password_only eq_refl eq_refl).
Defined.

(** ** The cleaned command *)

Lemma dropWhile_run (f : N -> bool) (l s : jsstring) :
  forallb f l = true -> dropWhile f (l ++ s) = dropWhile f s.
Proof.
  induction l as [|c l IH]; cbn [forallb app dropWhile]; [reflexivity|].
  intros H. apply andb_prop in H as [Hc Hl]. now rewrite Hc, IH.
Qed.

(** A first line [#!...] that ends with a line feed is removed, once. *)
Lemma clean_directive_line (l rest : jsstring) :
  forallb (fun c => negb (isLineTerminator c)) l = true ->
  cleanCommand (lit "#!" ++ l ++ nl ++ rest) = trim rest.
Proof.
  intros H. unfold cleanCommand. f_equal.
  change (lit "#!" ++ l ++ nl ++ rest) with (35 :: 33 :: l ++ 10 :: rest).
  unfold strip_shebang.
  change (startsWith (lit "#!") (35 :: 33 :: l ++ 10 :: rest)) with true.
  cbv iota. change (slice 2 (35 :: 33 :: l ++ 10 :: rest)) with (l ++ 10 :: rest).
  now rewrite dropWhile_run.
Qed.

(** A command that does not start with [#!] is only trimmed. *)
Lemma clean_no_directive (c : jsstring) :
  startsWith (lit "#!") c = false -> cleanCommand c = trim c.
Proof.
  intros H. unfold cleanCommand, strip_shebang. now rewrite H.
Qed.

(** C6: the directive line of a command with CRLF line ends stays in the
    embedded copy. *)
Theorem C6_crlf_directive_kept :
  cleanCommand (lit "#!/bin/bash" ++ cr ++ nl ++ lit "echo hi")
  = lit "#!/bin/bash" ++ cr ++ nl ++ lit "echo hi".
Proof. reflexivity. Qed.

(** The same for a command that is a directive line without a line feed. *)
Example clean_directive_only : cleanCommand (lit "#!/bin/bash") = lit "#!/bin/bash".
Proof. reflexivity. Qed.

(** ** The order of the stages *)

Lemma in_order_skip (fs : list jsstring) (x s : jsstring) :
  in_order fs s -> in_order fs (x ++ s).
Proof.
  destruct fs as [|f fs]; [trivial|].
  intros (a & b & -> & H). exists (x ++ a), b. now rewrite <- app_assoc.
Qed.

Lemma in_order_here (f : jsstring) (fs : list jsstring) (s : jsstring) :
  in_order fs s -> in_order (f :: fs) (f ++ s).
Proof. intros H. exists [], s. split; [reflexivity|exact H]. Qed.


Lemma in_order_of_text (fs : list jsstring) (f x s : jsstring) :
  in_order fs s -> in_order (f :: fs) (x ++ f ++ s).
Proof. intros H. exists x, s. split; [reflexivity|exact H]. Qed.

Lemma startsWith_skipn (p s : jsstring) :
  startsWith p s = true -> s = p ++ skipn (List.length p) s.
Proof.
  revert s. induction p as [|x p IH]; intros s H; [reflexivity|].
  destruct s as [|y s]; [discriminate|]. cbn [startsWith] in H.
  apply andb_prop in H as [Hx Hp]. apply N.eqb_eq in Hx as ->.
  cbn [List.length skipn app]. f_equal. now apply IH.
Qed.

Lemma text_after_found (f s b : jsstring) :
  text_after f s = Some b -> exists a, s = a ++ f ++ b.
Proof.
  revert b. induction s as [|c s IH]; intros b; cbn [text_after].
  - destruct (startsWith f []) eqn:E; [|discriminate].
    intros [= <-]. exists []. now apply startsWith_skipn.
  - destruct (startsWith f (c :: s)) eqn:E.
    + intros [= <-]. exists []. now apply startsWith_skipn.
    + intros H. destruct (IH b H) as (a & ->). now exists (c :: a).
Qed.

Lemma found_in_order_sound (fs : list jsstring) (s : jsstring) :
  found_in_order fs s = true -> in_order fs s.
Proof.
  revert s. induction fs as [|f fs IH]; intros s; cbn [found_in_order in_order].
  - trivial.
  - destruct (text_after f s) as [b|] eqn:E; [|discriminate].
    intros H. destruct (text_after_found f s b E) as (a & ->).
    exists a, b. split; [reflexivity|now apply IH].
Qed.











Example cleaned_failing_script :
  cleanedCommand nfs_failing_script = lit "ls /mnt/network" ++ nl ++ lit "exit 7".
Proof. reflexivity. Qed.

(** ** The unprivileged identity

    What the text written by the program holds, whatever the command is: the
    block that hands the cleaned command to [su - activepieces], no [sudo]
    in the script, [sudo] in a comment of the bootstrap command only.  What
    the shell does with a command that contains the delimiter of the
    here-document comes last. *)

Example sudoers_entry_is_found :
  sudo_in_comments_only (lit "echo 'activepieces ALL=(ALL) NOPASSWD: /bin/mount' >> /etc/sudoers") = false.
Proof. reflexivity. Qed.

Example sudo_call_is_found :
  sudo_in_comments_only (lit "# Unmount
sudo umount /mnt/network") = false.
Proof. reflexivity. Qed.

Ltac closed_literals :=
  repeat (apply Forall_cons; [vm_compute; reflexivity|]); apply Forall_nil.

Lemma script_literals_without_sudo (p : Props) :
  Forall (fun s => includes (lit "sudo") s = false)
         (literals (fullScript_parts p)).
Proof.
  unfold fullScript_parts, mounted_script, unmounted_script, unmount_stage,
    as_root_stage, switch_user_stage, run_as_user_stage, mountCommand,
    nfsOptions, smbOptions, or_default, installPackages.
  destruct (mount_requested p), (is_type p "nfs"), (is_type p "smb"),
    (truthy (mountOptions p)), (truthy (mountUsername p)),
    (truthy (mountPassword p)), (truthy_flag (runAsRoot p));
    rewrite ?literals_app; cbn [literals flat_map app]; closed_literals.
Qed.

Lemma bootstrap_names_sudo_in_comments_only (e : jsstring) :
  Forall (fun s => sudo_in_comments_only s = true) (literals (bootstrap_parts e)).
Proof. unfold bootstrap_parts. cbn [literals flat_map app]. closed_literals. Qed.

Lemma user_block_in_script (p : Props) :
  truthy_flag (runAsRoot p) = false ->
  exists a b, fullScript p = a ++ user_block p ++ b.
Proof.
  intros H.
  unfold fullScript, fullScript_parts, mounted_script, unmounted_script.
  rewrite H. unfold user_block.
  destruct (mount_requested p); rewrite !render_app;
    unfold switch_user_stage, run_as_user_stage;
    cbn [render flat_map text_of]; rewrite ?app_nil_r.
  - match goal with
    | |- exists _ _, ?x ++ ?m ++ ?k ++ (?s ++ ?c ++ ?e) ++ ?u = _ =>
        exists (x ++ m ++ k ++ lit "
# Switch to non-root user for command execution
"), u;
        change s with (lit "
# Switch to non-root user for command execution
" ++ lit "su - activepieces << 'EOF'
cd /workspace
")
    end.
    now rewrite <- !app_assoc.
  - match goal with
    | |- exists _ _, ?x ++ (?s ++ ?c ++ ?e) ++ ?u = _ =>
        exists (x ++ lit "
# Run command as non-root user
"), u;
        change s with (lit "
# Run command as non-root user
" ++ lit "su - activepieces << 'EOF'
cd /workspace
")
    end.
    now rewrite <- !app_assoc.
Qed.

Lemma startsWith_split (p s : jsstring) :
  startsWith p s = true -> exists b, s = p ++ b.
Proof.
  revert s. induction p as [|x p IH]; intros s H.
  - now exists s.
  - destruct s as [|y s]; [discriminate|]. cbn [startsWith] in H.
    apply andb_prop in H as [Hx Hp]. apply N.eqb_eq in Hx as ->.
    destruct (IH s Hp) as (b & ->). now exists b.
Qed.

Lemma includes_split (p s : jsstring) :
  includes p s = true -> exists a b, s = a ++ p ++ b.
Proof.
  induction s as [|c s IH]; cbn [includes]; intros H;
    apply orb_prop in H as [H | H].
  - destruct (startsWith_split _ _ H) as (b & ->). now exists [], b.
  - discriminate.
  - destruct (startsWith_split _ _ H) as (b & ->). now exists [], b.
  - destruct (IH H) as (a & b & ->). now exists (c :: a), b.
Qed.

Lemma bootstrap_text (p : Props) :
  in_order [lit "useradd -u 1001 -g 1001 -m -s /bin/bash activepieces";
            encodedScript p; lit "bash /tmp/user_script.sh"]
           (bootstrap p).
Proof.
  unfold bootstrap, bootstrap_parts. cbn [render flat_map text_of].
  rewrite app_nil_r.
  match goal with
  | |- in_order (?u :: _ :: ?r :: _) (?a ++ _ ++ ?b) =>
      destruct (includes_split u a ltac:(vm_compute; reflexivity))
        as (a1 & a2 & ->);
      destruct (includes_split r b ltac:(vm_compute; reflexivity))
        as (b1 & b2 & ->)
  end.
  rewrite <- !app_assoc. repeat apply in_order_of_text. exact I.
Qed.

(** C4: the user's command is not always run under the unprivileged
    identity.  For the command made of the three lines [echo user], [EOF]
    and [id], with [runAsRoot] not set, the cleaned command is the command
    itself and the composed script puts it after the line
    [su - activepieces << 'EOF'].  Its own line [EOF] ends the here-document:
    only [cd /workspace] and [echo user] are handed to [su - activepieces],
    and [id] is a command of the script itself.  The container's command
    ([bash -c] of the bootstrap text, which starts as root to create the
    user) decodes this very script into [/tmp/user_script.sh] and runs it
    with [bash]. *)
Theorem C4_here_document_escape :
  truthy_flag (runAsRoot escaping) = false
  /\ cleanedCommand escaping = lit "echo user
EOF
id"
  /\ fullScript escaping = lit "#!/bin/bash
# No mount configuration
set +e


# Run command as non-root user
su - activepieces << 'EOF'
cd /workspace
echo user
EOF
id
EOF

"
  /\ user_commands (fullScript escaping)
     = [lit "cd /workspace"; lit "echo user"]
  /\ own_commands (fullScript escaping)
     = [lit "#!/bin/bash";
       lit "# No mount configuration";
       lit "set +e";
       [];
       [];
       lit "# Run command as non-root user";
       lit "su - activepieces << 'EOF'";
       lit "id";
       lit "EOF";
       [];
       []]
  /\ encodedScript escaping
     = lit "IyEvYmluL2Jhc2gKIyBObyBtb3VudCBjb25maWd1cmF0aW9uCnNldCArZQoKCiMgUnVuIGNvbW1hbmQgYXMgbm9uLXJvb3QgdXNlcgpzdSAtIGFjdGl2ZXBpZWNlcyA8PCAnRU9GJwpjZCAvd29ya3NwYWNlCmVjaG8gdXNlcgpFT0YKaWQKRU9GCgo="
  /\ Buffer.toString (base64_decode (encodedScript escaping))
     = fullScript escaping
  /\ Cmd (containerOptions escaping)
     = [lit "bash"; lit "-c"; bootstrap escaping]
  /\ in_order [lit "echo '" ++ encodedScript escaping
               ++ lit "' | base64 -d > /tmp/user_script.sh";
               lit "bash /tmp/user_script.sh"]
              (bootstrap escaping).
Proof.
  repeat split; try (vm_compute; reflexivity).
  apply found_in_order_sound. vm_compute. reflexivity.
Qed.

(** ** The run: how it ends *)

Lemma rethrow_raised (p : Props) (e : Error) :
  rethrow p e = ([], Thrown (raised p e)).
Proof.
  unfold rethrow, raised, throw.
  now destruct (message_includes e (lit "connect ENOENT")), (status_is e 404).
Qed.

Lemma catch_rethrow (p : Props) (m : M object) :
  catch m (rethrow p)
  = (fst m, match snd m with
            | Thrown e => Thrown (raised p e)
            | r => r
            end).
Proof.
  destruct m as [l [r|e|]]; cbn [catch fst snd]; try reflexivity.
  rewrite rethrow_raised. now rewrite app_nil_r.
Qed.

Lemma run_not_started (p : Props) (d : Docker) (e : Error) :
  startup_failure p d = Some e -> snd (run p d) = Thrown (raised p e).
Proof.
  unfold startup_failure, image_failure, run. rewrite catch_rethrow.
  unfold resolveImage, request.
  destruct (inspect d (imageName p)), (pull d (imageName p)),
    (followProgress d), (createContainer d (containerOptions p)),
    (attach d), (start d);
    intros [= <-]; try reflexivity;
    now destruct (supervise p d) as [l [r|e'|]].
Qed.

Lemma run_started (p : Props) (d : Docker) :
  startup_failure p d = None ->
  run p d
  = (startup_calls p d ++ SetTimeout (executionTimeout p)
       :: fst (supervise p d),
     match snd (supervise p d) with
     | Returned chunks => Returned (result (collect chunks) d)
     | Thrown e => Thrown (raised p e)
     | Pending => Pending
     end).
Proof.
  unfold startup_failure, image_failure, run, startup_calls.
  rewrite catch_rethrow. unfold resolveImage, request.
  destruct (inspect d (imageName p)), (pull d (imageName p)),
    (followProgress d), (createContainer d (containerOptions p)),
    (attach d), (start d);
    try discriminate; intros _;
    destruct (supervise p d) as [l [r|e'|]];
    cbv [catch bind fst snd ret]; cbn [app]; now rewrite ?app_nil_r.
Qed.

(** A result is always the object built by the [return] statement. *)
Lemma run_returned (p : Props) (d : Docker) (r : object) :
  snd (run p d) = Returned r ->
  exists chunks, r = result (collect chunks) d.
Proof.
  destruct (startup_failure p d) as [e|] eqn:E.
  - rewrite (run_not_started p d e E). discriminate.
  - rewrite (run_started p d E). cbn [snd].
    destruct (snd (supervise p d)) as [chunks|e|]; try discriminate.
    intros [= <-]. now exists chunks.
Qed.

(** ** The supervision *)

Lemma supervise_exited (p : Props) (d : Docker) (t code : Z) :
  exits d = Some (t, code) -> (t < deadline p)%Z -> wait d = None ->
  supervise p d = ([Wait; ClearTimeout], Returned (delivered_until t true d)).
Proof.
  intros He Ht Hw. unfold supervise. rewrite He, Hw.
  fold (deadline p). apply Z.ltb_lt in Ht. now rewrite Ht.
Qed.

Lemma supervise_killed (p : Props) (d : Docker) :
  timed_out p d -> kill d = None -> wait d = None ->
  supervise p d
  = ([Wait; Kill; ClearTimeout],
     Returned (delivered_until (deadline p) false d)).
Proof.
  unfold timed_out, supervise. fold (deadline p). intros Ht Hk Hw.
  rewrite Hk, Hw. destruct (exits d) as [[t c]|]; [|reflexivity].
  apply Z.ltb_ge in Ht. now rewrite Ht.
Qed.

Lemma supervise_kill (p : Props) (d : Docker) :
  In Kill (fst (supervise p d)) <-> timed_out p d.
Proof.
  unfold timed_out, supervise. fold (deadline p).
  destruct (exits d) as [[t c]|].
  - destruct (Z.ltb_spec t (deadline p)) as [Hlt | Hge].
    + destruct (wait d); cbn; split; try lia;
        intros [H | [H | H]]; try discriminate H; contradiction.
    + destruct (kill d), (wait d); cbn; intuition.
  - destruct (kill d), (wait d); cbn; intuition.
Qed.

Lemma startup_calls_kill (p : Props) (d : Docker) :
  ~ In Kill (startup_calls p d).
Proof.
  unfold startup_calls. destruct (inspect d (imageName p)); cbn;
    intuition discriminate.
Qed.

(** C10: without a timeout, or with the timeout 0, the timer is armed for
    30000 milliseconds, and a container that is still running then is
    killed. *)
Theorem C10_falsy_timeout_is_30_seconds (p : Props) (d : Docker) :
  timeout p = None \/ timeout p = Some 0%Z ->
  startup_failure p d = None ->
  executionTimeout p = 30000%Z
  /\ deadline p = 30000%Z
  /\ In (SetTimeout 30000) (fst (run p d))
  /\ (In Kill (fst (run p d))
      <-> forall t code, exits d = Some (t, code) -> (30000 <= t)%Z).
Proof.
  intros Ht Hs.
  assert (He : executionTimeout p = 30000%Z)
    by (unfold executionTimeout; now destruct Ht as [-> | ->]).
  assert (Hd : deadline p = 30000%Z) by (unfold deadline; now rewrite He).
  repeat split; try assumption.
  - rewrite (run_started p d Hs), He. cbn [fst].
    apply in_or_app. right. now left.
  - rewrite (run_started p d Hs). cbn [fst]. intros H t code Hx.
    apply in_app_or in H as [H | [H | H]].
    + now apply startup_calls_kill in H.
    + discriminate.
    + apply supervise_kill in H. unfold timed_out in H.
      now rewrite Hx, Hd in H.
  - rewrite (run_started p d Hs). cbn [fst]. intros H.
    apply in_or_app. right. right. apply supervise_kill.
    unfold timed_out. rewrite Hd.
    destruct (exits d) as [[t c]|]; [now apply (H t c)|exact I].
Qed.

Lemma C10_witness :
  executionTimeout zero_timeout = 30000%Z
  /\ deadline zero_timeout = 30000%Z
  /\ In (SetTimeout 30000)
        (fst (run zero_timeout (daemon [] (Some (60000, 0)%Z))))
  /\ (In Kill (fst (run zero_timeout (daemon [] (Some (60000, 0)%Z))))
      <-> forall t code,
          exits (daemon [] (Some (60000, 0)%Z)) = Some (t, code) ->
          (30000 <= t)%Z).
Proof.
  apply (C10_falsy_timeout_is_30_seconds zero_timeout).
  - right. reflexivity.
  - reflexivity.
Defined.

(** ** The result of a run *)

Lemma result_fields (o : Output) (d : Docker) :
  get "success" (result o d) = Some (VBool true)
  /\ get "output" (result o d) = Some (VString (stdout o))
  /\ get "stdout" (result o d) = Some (VString (stdout o))
  /\ get "stderr" (result o d) = Some (VString (stderr o))
  /\ get "timedOut" (result o d) = None
  /\ get "exitCode" (result o d) = None.
Proof. repeat split. Qed.

(** A script that exits by itself before the timer fires: the result does
    not depend on its status code. *)
Lemma run_exited (p : Props) (d : Docker) (t code : Z) :
  startup_failure p d = None ->
  exits d = Some (t, code) -> (t < deadline p)%Z -> wait d = None ->
  run p d
  = (startup_calls p d
       ++ [SetTimeout (executionTimeout p); Wait; ClearTimeout],
     Returned (result (collect (delivered_until t true d)) d)).
Proof.
  intros Hs He Ht Hw. rewrite (run_started p d Hs).
  now rewrite (supervise_exited p d t code He Ht Hw).
Qed.

Lemma run_killed (p : Props) (d : Docker) :
  startup_failure p d = None ->
  timed_out p d -> kill d = None -> wait d = None ->
  run p d
  = (startup_calls p d
       ++ [SetTimeout (executionTimeout p); Wait; Kill; ClearTimeout],
     Returned (result (collect (delivered_until (deadline p) false d)) d)).
Proof.
  intros Hs Ht Hk Hw. rewrite (run_started p d Hs).
  now rewrite (supervise_killed p d Ht Hk Hw).
Qed.

(** C1: a script that exits with status 3 after writing to its error
    stream, well before the timer fires: the run returns a result whose
    success flag is [true] and which holds no exit code. *)
Theorem C1_failed_script_reported_as_success :
  exists r,
    snd (run (just (lit "exit 3"))
             (daemon [(10%Z, frame 2 (lit "boom"))] (Some (100, 3)%Z)))
    = Returned r
    /\ get "success" r = Some (VBool true)
    /\ get "stderr" r = Some (VString (lit "boom"))
    /\ get "exitCode" r = None
    /\ get "code" r = None.
Proof. eexists. repeat split. Qed.

(** C2, as stated, fails: the timer of one second fires before the script
    exits after a minute, and the result returned has no [timedOut]
    property. *)
Lemma C2_counterexample :
  timed_out sleeper sleeping
  /\ ~ (exists r,
          snd (run sleeper sleeping) = Returned r
          /\ get "timedOut" r = Some (VBool true)
          /\ get "exitCode" r = None).
Proof.
  split.
  - vm_compute. discriminate.
  - intros (r & Hr & Ht & _). vm_compute in Hr.
    injection Hr as <-. discriminate Ht.
Qed.

(** C2, amended: when the timer fires before the script exits, and the
    daemon accepts the kill and the wait, the run asks for the kill and
    returns a result that holds the output delivered before the deadline and
    neither a [timedOut] flag nor an exit code. *)
Theorem C2_timeout_returns_captured_output (p : Props) (d : Docker) :
  startup_failure p d = None ->
  timed_out p d -> kill d = None -> wait d = None ->
  exists r,
    run p d
    = (startup_calls p d
         ++ [SetTimeout (executionTimeout p); Wait; Kill; ClearTimeout],
       Returned r)
    /\ get "stdout" r
       = Some (VString
                 (stdout (collect (delivered_until (deadline p) false d))))
    /\ get "stderr" r
       = Some (VString
                 (stderr (collect (delivered_until (deadline p) false d))))
    /\ get "output" r = get "stdout" r
    /\ get "timedOut" r = None
    /\ get "exitCode" r = None.
Proof.
  intros Hs Ht Hk Hw. eexists. split.
  - apply (run_killed p d Hs Ht Hk Hw).
  - repeat split.
Qed.

Lemma C2_witness :
  exists r,
    run sleeper sleeping
    = (startup_calls sleeper sleeping
         ++ [SetTimeout (executionTimeout sleeper); Wait; Kill; ClearTimeout],
       Returned r)
    /\ get "stdout" r
       = Some (VString
                 (stdout (collect
                            (delivered_until (deadline sleeper) false
                                             sleeping))))
    /\ get "stderr" r
       = Some (VString
                 (stderr (collect
                            (delivered_until (deadline sleeper) false
                                             sleeping))))
    /\ get "output" r = get "stdout" r
    /\ get "timedOut" r = None
    /\ get "exitCode" r = None.
Proof.
  apply (C2_timeout_returns_captured_output sleeper sleeping).
  - reflexivity.
  - vm_compute. discriminate.
  - reflexivity.
  - reflexivity.
Defined.

Example sleeper_output :
  stdout (collect (delivered_until (deadline sleeper) false sleeping))
  = lit "tick".
Proof. reflexivity. Qed.

(** ** Failures of the daemon *)

Lemma supervise_wait_failed (p : Props) (d : Docker) (e : Error) :
  wait_settles d = true -> wait d = Some e ->
  snd (supervise p d) = Thrown e.
Proof.
  unfold wait_settles, supervise. intros Hs ->.
  destruct (exits d) as [[t c]|], (kill d); try discriminate;
    try destruct (t <? timer_delay (executionTimeout p))%Z; reflexivity.
Qed.

Lemma supervise_wait_settled (p : Props) (d : Docker) :
  wait_settles d = true -> wait d = None ->
  exists chunks, snd (supervise p d) = Returned chunks.
Proof.
  unfold wait_settles, supervise. intros Hs ->.
  destruct (exits d) as [[t c]|], (kill d); try discriminate;
    try destruct (t <? timer_delay (executionTimeout p))%Z;
    eexists; reflexivity.
Qed.

(** Without a failure, and when the wait settles, the run returns. *)
Lemma run_returns (p : Props) (d : Docker) :
  failure p d = None -> wait_settles d = true ->
  exists r, snd (run p d) = Returned r.
Proof.
  unfold failure. intros Hf Hw.
  destruct (startup_failure p d) eqn:Hs; [discriminate|].
  rewrite Hw in Hf. rewrite (run_started p d Hs). cbn [snd].
  destruct (supervise_wait_settled p d Hw Hf) as (chunks & ->).
  now eexists.
Qed.

(** C5, as stated, fails: the socket is there and the image is found, the
    creation of the container fails, and the run throws that error. *)
Lemma C5_counterexample :
  image_failure (just (lit "echo hi")) no_space = None
  /\ message_includes disk_full (lit "connect ENOENT") = false
  /\ snd (run (just (lit "echo hi")) no_space) = Thrown disk_full
  /\ ~ (exists r, snd (run (just (lit "echo hi")) no_space) = Returned r).
Proof.
  repeat split. intros (r & Hr). vm_compute in Hr. discriminate Hr.
Qed.

(** C5, amended: a failure of the pull, of the creation of the container, of
    the attach, of the start or of the wait is thrown by the run, which then
    returns no result; the error thrown is the socket error when the message
    of the failure contains [connect ENOENT], the image error when its status
    code is 404, and the failure itself otherwise. *)
Theorem C5_failures_are_thrown (p : Props) (d : Docker) (e : Error) :
  failure p d = Some e ->
  snd (run p d) = Thrown (raised p e)
  /\ ~ (exists r, snd (run p d) = Returned r)
  /\ (message_includes e (lit "connect ENOENT") = false ->
      status_is e 404 = false -> raised p e = e).
Proof.
  intros Hf.
  assert (Hr : snd (run p d) = Thrown (raised p e)).
  { unfold failure in Hf. destruct (startup_failure p d) as [e'|] eqn:Hs.
    - injection Hf as <-. now apply run_not_started.
    - destruct (wait_settles d) eqn:Hw; [|discriminate].
      rewrite (run_started p d Hs). cbn [snd].
      now rewrite (supervise_wait_failed p d e Hw Hf). }
  split; [exact Hr|split].
  - intros (r & H). rewrite Hr in H. discriminate H.
  - intros Hm Hc. unfold raised. now rewrite Hm, Hc.
Qed.

Lemma C5_witness :
  snd (run (just (lit "echo hi")) no_space)
  = Thrown (raised (just (lit "echo hi")) disk_full)
  /\ ~ (exists r, snd (run (just (lit "echo hi")) no_space) = Returned r)
  /\ (message_includes disk_full (lit "connect ENOENT") = false ->
      status_is disk_full 404 = false ->
      raised (just (lit "echo hi")) disk_full = disk_full).
Proof.
  apply (C5_failures_are_thrown (just (lit "echo hi")) no_space disk_full).
  reflexivity.
Defined.

(** ** The handler of the stream *)

(** C7: a stdout frame and a stderr frame delivered in one chunk: the
    error stream stays empty and the standard output holds the first
    payload, the header of the second frame and the second payload. *)
Theorem C7_two_frames_in_one_chunk :
  collect [frame 1 (lit "out") ++ frame 2 (lit "err")]
  = {| stdout := lit "out" ++ [2; 0; 0; 0; 0; 0; 0; 3] ++ lit "err";
       stderr := [] |}.
Proof. reflexivity. Qed.

(** A frame cut in two chunks: the second chunk is taken for a frame of its
    own, whose selector is its first byte. *)
Example frame_in_two_chunks :
  collect [firstn 10 (frame 2 (lit "error")); skipn 10 (frame 2 (lit "error"))]
  = {| stdout := lit "ror"; stderr := lit "er" |}.
Proof. reflexivity. Qed.

Lemma decode_ascii (b : N) (bs : Buffer.Buffer) :
  b < 128 -> Buffer.decode None (b :: bs) = b :: Buffer.decode None bs.
Proof.
  intros H. cbn [Buffer.decode]. unfold Buffer.lead.
  apply N.ltb_lt in H. now rewrite H.
Qed.

Lemma frame_header (selector : N) (payload : Buffer.Buffer) :
  (List.length payload < 128)%nat ->
  frame selector payload
  = [selector; 0; 0; 0; 0; 0; 0; N.of_nat (List.length payload)] ++ payload.
Proof.
  intros H. unfold frame.
  assert (Hn : N.of_nat (List.length payload) < 128) by lia.
  rewrite (N.div_small _ 16777216), (N.div_small _ 65536),
    (N.div_small _ 256) by lia.
  rewrite (N.mod_small (N.of_nat (List.length payload)) 256) by lia.
  reflexivity.
Qed.

(** The text the handler gets from a short frame is that of its payload. *)
Lemma frame_text (selector : N) (payload : Buffer.Buffer) :
  selector < 128 -> (List.length payload < 128)%nat ->
  slice 8 (Buffer.toString (frame selector payload))
  = Buffer.toString payload.
Proof.
  intros Hs Hp. rewrite (frame_header selector payload Hp).
  unfold Buffer.toString. cbn [app].
  rewrite !decode_ascii by lia. reflexivity.
Qed.

(** When every chunk is one whole frame of stdout or stderr with a payload
    of less than 128 bytes, the handler rebuilds both streams. *)
Lemma collect_whole_frames (frames : list (N * Buffer.Buffer)) (o : Output) :
  Forall (fun f => (fst f = 1 \/ fst f = 2)
                   /\ (List.length (snd f) < 128)%nat) frames ->
  collect_from o (map (fun f => frame (fst f) (snd f)) frames)
  = {| stdout := stdout o ++ payloads 1 frames;
       stderr := stderr o ++ payloads 2 frames |}.
Proof.
  intros H. revert o. induction H as [|[sel payload] frames [Hs Hp] _ IH];
    intros o.
  - cbn. rewrite !app_nil_r. now destruct o.
  - cbn [map collect_from fold_left fst snd] in *.
    unfold collect_from in IH. rewrite IH. clear IH.
    unfold on_data. rewrite frame_text by (destruct Hs; lia || assumption).
    rewrite (frame_header sel payload Hp). cbn [app first_is fst snd payloads flat_map].
    destruct Hs as [-> | ->]; cbn [N.eqb Pos.eqb stdout stderr];
      now rewrite ?app_nil_l, <- ?app_assoc.
Qed.

(** * Further properties of the sandboxed action *)

(** ** The cleaned command *)

Lemma dropWhile_suffix (f : N -> bool) (s : jsstring) :
  exists a, s = a ++ dropWhile f s.
Proof.
  induction s as [|c s (a & IH)]; [now exists []|].
  cbn [dropWhile]. destruct (f c).
  - exists (c :: a). cbn [app]. now f_equal.
  - now exists [].
Qed.

Lemma dropWhile_head (f : N -> bool) (s : jsstring) (x : N) (r : jsstring) :
  dropWhile f s = x :: r -> f x = false.
Proof.
  induction s as [|c s IH]; cbn [dropWhile]; [discriminate|].
  destruct (f c) eqn:E; [exact IH|]. now intros [= <- _].
Qed.

Lemma trimEnd_prefix (s : jsstring) : exists b, s = trimEnd s ++ b.
Proof.
  unfold trimEnd. destruct (dropWhile_suffix isWhiteSpace (rev s)) as (a & H).
  exists (rev a). rewrite <- rev_app_distr, <- H. now rewrite rev_involutive.
Qed.

Lemma trim_part (s : jsstring) : exists a b, s = a ++ trim s ++ b.
Proof.
  unfold trim, trimStart.
  destruct (dropWhile_suffix isWhiteSpace s) as (a & Ha).
  destruct (trimEnd_prefix (dropWhile isWhiteSpace s)) as (b & Hb).
  exists a, b. now rewrite <- Hb.
Qed.

Lemma strip_shebang_suffix (c : jsstring) :
  exists a, c = a ++ strip_shebang c.
Proof.
  unfold strip_shebang. destruct (startsWith (lit "#!") c); [|now exists []].
  destruct (dropWhile_suffix (fun u => negb (isLineTerminator u)) (slice 2 c))
    as (a & Ha).
  destruct (dropWhile _ (slice 2 c)) as [|u after]; [now exists []|].
  destruct (u =? 10); [|now exists []].
  exists (firstn 2 c ++ a ++ [u]).
  rewrite <- (firstn_skipn 2 c) at 1. unfold slice in Ha. rewrite Ha.
  now rewrite <- !app_assoc.
Qed.

(** X1: the cleaned command is a part of the command as it was given:
    cleaning only removes text before and after it. *)
Theorem cleaned_command_is_part_of_command (c : jsstring) :
  exists a b, c = a ++ cleanCommand c ++ b.
Proof.
  unfold cleanCommand.
  destruct (strip_shebang_suffix c) as (a & Ha).
  destruct (trim_part (strip_shebang c)) as (a' & b & Hb).
  exists (a ++ a'), b. rewrite <- app_assoc, <- Hb. exact Ha.
Qed.

(** X2: the cleaned command neither starts nor ends with white space. *)
Theorem cleaned_command_is_trimmed (c : jsstring) :
  match cleanCommand c with
  | [] => True
  | x :: _ => isWhiteSpace x = false
  end
  /\ match rev (cleanCommand c) with
     | [] => True
     | x :: _ => isWhiteSpace x = false
     end.
Proof.
  unfold cleanCommand, trim. set (t := trimStart (strip_shebang c)). split.
  - destruct (trimEnd_prefix t) as (b & Hb).
    destruct (trimEnd t) as [|x r] eqn:E; [exact I|].
    unfold t, trimStart in Hb. cbn [app] in Hb.
    now apply dropWhile_head in Hb.
  - unfold trimEnd. rewrite rev_involutive.
    destruct (dropWhile isWhiteSpace (rev t)) as [|x r] eqn:E; [exact I|].
    now apply dropWhile_head in E.
Qed.

(** X3: a first line [#!...] that ends with a line feed is removed, and
    only that one: what follows it is kept, trimmed, also when it starts with
    further lines of that form. *)
Theorem directive_line_removed_once (l rest : jsstring) :
  forallb (fun c => negb (isLineTerminator c)) l = true ->
  cleanCommand (lit "#!" ++ l ++ nl ++ rest) = trim rest.
Proof. apply clean_directive_line. Qed.

Lemma directive_line_removed_once_witness :
  cleanCommand (lit "#!" ++ lit "/bin/bash" ++ nl
                ++ (lit "#!/bin/sh" ++ nl ++ lit "ls -la" ++ nl))
  = trim (lit "#!/bin/sh" ++ nl ++ lit "ls -la" ++ nl).
Proof.
  apply (directive_line_removed_once (lit "/bin/bash")). reflexivity.
Defined.

(** ** The composed script *)

(** X4: without a mount type or without a mount source the script has no
    mount stage at all: it is the script of the request without its mount
    properties, and no text written by the program installs, creates a
    directory, mounts or unmounts. *)
Theorem script_without_mount (p : Props) :
  truthy (mountType p) = false \/ truthy (mountSource p) = false ->
  fullScript p = fullScript (without_mount p)
  /\ Forall (fun s => includes (lit "mount -t") s = false
                      /\ includes (lit "umount") s = false
                      /\ includes (lit "mkdir") s = false
                      /\ includes (lit "apt-get") s = false)
            (literals (fullScript_parts p)).
Proof.
  intros H.
  assert (Hm : mount_requested p = false).
  { unfold mount_requested. destruct H as [-> | ->]; [reflexivity|].
    apply andb_false_r. }
  unfold fullScript, fullScript_parts. rewrite Hm. split; [reflexivity|].
  unfold unmounted_script, as_root_stage, run_as_user_stage.
  destruct (truthy_flag (runAsRoot p)); cbn [literals flat_map app];
    repeat (apply Forall_cons; [repeat split; vm_compute; reflexivity|]);
    apply Forall_nil.
Qed.

Lemma script_without_mount_witness :
  fullScript nfs_without_source = fullScript (without_mount nfs_without_source)
  /\ Forall (fun s => includes (lit "mount -t") s = false
                      /\ includes (lit "umount") s = false
                      /\ includes (lit "mkdir") s = false
                      /\ includes (lit "apt-get") s = false)
            (literals (fullScript_parts nfs_without_source)).
Proof.
  apply (script_without_mount nfs_without_source). right. reflexivity.
Defined.

Lemma root_block_in_script (p : Props) :
  truthy_flag (runAsRoot p) = true ->
  exists a b, fullScript p = a ++ root_block p ++ b.
Proof.
  intros H.
  unfold fullScript, fullScript_parts, mounted_script, unmounted_script.
  rewrite H. unfold root_block, as_root_stage.
  destruct (mount_requested p); rewrite !render_app;
    cbn [render flat_map text_of]; rewrite ?app_nil_r.
  - match goal with
    | |- exists _ _, ?x ++ ?m ++ ?k ++ (?s ++ ?c ++ ?e) ++ ?u = _ =>
        exists (x ++ m ++ k ++ nl), u;
        change s with (nl ++ lit "# Execute command as root
cd /workspace
")
    end.
    now rewrite <- !app_assoc.
  - match goal with
    | |- exists _ _, ?x ++ (?s ++ ?c ++ ?e) ++ ?u = _ =>
        exists (x ++ nl), u;
        change s with (nl ++ lit "# Execute command as root
cd /workspace
")
    end.
    now rewrite <- !app_assoc.
Qed.

(** X5: with [runAsRoot] set, the cleaned command runs in the outer script
    itself, as root, and the text written by the program never names the
    user [activepieces] nor calls [su]. *)
Theorem root_script_has_no_user_switch (p : Props) :
  truthy_flag (runAsRoot p) = true ->
  (exists a b, fullScript p = a ++ root_block p ++ b)
  /\ Forall (fun s => includes (lit "activepieces") s = false
                      /\ includes (lit "su -") s = false)
            (literals (fullScript_parts p)).
Proof.
  intros H. split; [now apply root_block_in_script|].
  unfold fullScript_parts, mounted_script, unmounted_script, unmount_stage,
    as_root_stage, mountCommand, nfsOptions, smbOptions, or_default,
    installPackages.
  rewrite H.
  destruct (mount_requested p), (is_type p "nfs"), (is_type p "smb"),
    (truthy (mountOptions p)), (truthy (mountUsername p)),
    (truthy (mountPassword p));
    rewrite ?literals_app; cbn [literals flat_map app];
    repeat (apply Forall_cons; [split; vm_compute; reflexivity|]);
    apply Forall_nil.
Qed.

Lemma root_script_has_no_user_switch_witness :
  (exists a b, fullScript as_root = a ++ root_block as_root ++ b)
  /\ Forall (fun s => includes (lit "activepieces") s = false
                      /\ includes (lit "su -") s = false)
            (literals (fullScript_parts as_root)).
Proof.
  apply (root_script_has_no_user_switch as_root). reflexivity.
Defined.

(** X6: a mount type that is neither [nfs] nor [smb], with a mount source:
    nothing is installed and the mount command is empty, so that the script
    tests [if ; then]; the user command and the unmount still follow. *)
Theorem unknown_mount_type (p : Props) :
  truthy (mountType p) = true ->
  is_type p "nfs" = false -> is_type p "smb" = false ->
  truthy (mountSource p) = true ->
  installPackages p = []
  /\ render (mountCommand p) = []
  /\ in_order [lit "if ; then"; cleanedCommand p; unmount_text p]
              (fullScript p).
Proof.
  intros Ht Hn Hs Hsrc.
  assert (Hi : installPackages p = [])
    by (unfold installPackages; now rewrite Hn, Hs).
  assert (Hc : mountCommand p = [])
    by (unfold mountCommand; now rewrite Hn, Hs).
  split; [exact Hi|]. split; [now rewrite Hc|].
  unfold fullScript, fullScript_parts, mount_requested.
  rewrite Ht, Hsrc. cbn [andb]. unfold mounted_script, unmount_stage, unmount_text.
  rewrite Hc, Hi, !render_app.
  destruct (truthy_flag (runAsRoot p));
    unfold as_root_stage, switch_user_stage;
    cbn [render flat_map text_of]; rewrite ?app_nil_r, <- ?app_assoc;
    cbn [app].
  all: match goal with
       | |- in_order _ (?h ++ ?c1 ++ ?m1 ++ ?c2 ++ ?m2 ++ ?c3 ++ ?k ++ ?u
                          ++ ?c ++ ?e ++ ?um ++ ?m3 ++ ?t) =>
           destruct (includes_split (lit "if ; then") (c3 ++ k)
                       ltac:(vm_compute; reflexivity)) as (x & y & E);
           change um with (lit "

# Unmount as root (after user command completes)
" ++ lit "umount ");
           change t with (lit " 2>/dev/null || true" ++ nl);
           replace (h ++ c1 ++ m1 ++ c2 ++ m2 ++ c3 ++ k ++ u ++ c ++ e
                      ++ (lit "

# Unmount as root (after user command completes)
" ++ lit "umount ") ++ m3 ++ lit " 2>/dev/null || true" ++ nl)
             with ((h ++ c1 ++ m1 ++ c2 ++ m2 ++ x) ++ lit "if ; then"
                   ++ (y ++ u) ++ c ++ (e ++ lit "

# Unmount as root (after user command completes)
") ++ (lit "umount " ++ m3 ++ lit " 2>/dev/null || true") ++ nl)
             by (rewrite <- !app_assoc;
                 do 5 (apply (f_equal (app _)));
                 rewrite !app_assoc, <- (app_assoc x), <- E;
                 now rewrite <- !app_assoc)
       end.
  all: repeat apply in_order_of_text; exact I.
Qed.

Lemma unknown_mount_type_witness :
  installPackages webdav_share = []
  /\ render (mountCommand webdav_share) = []
  /\ in_order [lit "if ; then"; cleanedCommand webdav_share;
               unmount_text webdav_share]
              (fullScript webdav_share).
Proof.
  apply (unknown_mount_type webdav_share); reflexivity.
Defined.

(** ** The encoded script *)

Ltac Zify.zify_post_hook ::= Z.to_euclidean_division_equations.

Lemma digit_in_alphabet (n : N) :
  n < 64 -> In (Buffer.digit n) Buffer.alphabet.
Proof.
  intros H. unfold Buffer.digit. apply nth_In.
  change (List.length Buffer.alphabet) with 64%nat. lia.
Qed.

Lemma digit_is_base64 (n : N) : n < 64 -> is_base64 (Buffer.digit n) = true.
Proof.
  intros H. unfold is_base64. apply orb_true_intro. left.
  apply existsb_exists. exists (Buffer.digit n).
  split; [now apply digit_in_alphabet|apply N.eqb_refl].
Qed.

Lemma below_64 (n : N) : n < 64 -> In n (map N.of_nat (seq 0 64)).
Proof.
  intros H. apply in_map_iff. exists (N.to_nat n).
  split; [apply N2Nat.id|]. apply in_seq. lia.
Qed.

Lemma undigit_digit (n : N) :
  n < 64 -> undigit (Buffer.digit n) = n /\ (Buffer.digit n =? 61) = false.
Proof.
  intros H. apply below_64 in H.
  assert (A : forallb (fun k => (undigit (Buffer.digit k) =? k)
                                && negb (Buffer.digit k =? 61))
                      (map N.of_nat (seq 0 64)) = true)
    by (vm_compute; reflexivity).
  rewrite forallb_forall in A. specialize (A n H).
  apply andb_prop in A as [A B]. apply N.eqb_eq in A.
  split; [exact A|]. now destruct (Buffer.digit n =? 61).
Qed.

(** Induction for a function that takes three elements at a time. *)
Lemma by_threes (P : Buffer.Buffer -> Prop) :
  P [] -> (forall x, P [x]) -> (forall x y, P [x; y]) ->
  (forall x y z b, P b -> P (x :: y :: z :: b)) ->
  forall b, P b.
Proof.
  intros H0 H1 H2 H3 b.
  assert (A : P b /\ (forall x, P (x :: b)) /\ (forall x y, P (x :: y :: b))).
  { induction b as [|a b (IH0 & IH1 & IH2)]; [now repeat split|].
    repeat split; auto. }
  apply A.
Qed.

Lemma base64_units (b : Buffer.Buffer) :
  bytes b -> forallb is_base64 (Buffer.base64 b) = true.
Proof.
  unfold bytes. pattern b. apply by_threes; clear b.
  - reflexivity.
  - intros x H. inversion_clear H as [|? ? Hx _].
    cbn [Buffer.base64 forallb]. rewrite !digit_is_base64 by lia.
    reflexivity.
  - intros x y H. inversion_clear H as [|? ? Hx H']. inversion_clear H' as [|? ? Hy _].
    cbn [Buffer.base64 forallb]. rewrite !digit_is_base64 by lia.
    reflexivity.
  - intros x y z b IH H. inversion_clear H as [|? ? Hx H'].
    inversion_clear H' as [|? ? Hy H]. inversion_clear H as [|? ? Hz Hb].
    cbn [Buffer.base64 forallb app]. rewrite !digit_is_base64 by lia.
    now rewrite IH.
Qed.

Lemma base64_roundtrip (b : Buffer.Buffer) :
  bytes b -> base64_decode (Buffer.base64 b) = b.
Proof.
  unfold bytes. pattern b. apply by_threes; clear b.
  - reflexivity.
  - intros x H. inversion_clear H as [|? ? Hx _].
    cbn [Buffer.base64 base64_decode N.eqb Pos.eqb].
    destruct (undigit_digit (x / 4)) as [-> _]; [lia|].
    destruct (undigit_digit (x mod 4 * 16)) as [-> _]; [lia|].
    f_equal. lia.
  - intros x y H. inversion_clear H as [|? ? Hx H']. inversion_clear H' as [|? ? Hy _].
    cbn [Buffer.base64 base64_decode].
    destruct (undigit_digit (x / 4)) as [-> _]; [lia|].
    destruct (undigit_digit (x mod 4 * 16 + y / 16)) as [-> _]; [lia|].
    destruct (undigit_digit (y mod 16 * 4)) as [-> ->]; [lia|].
    cbn [N.eqb Pos.eqb]. f_equal; [lia|]. f_equal. lia.
  - intros x y z b IH H. inversion_clear H as [|? ? Hx H'].
    inversion_clear H' as [|? ? Hy H]. inversion_clear H as [|? ? Hz Hb].
    cbn [Buffer.base64 base64_decode app].
    destruct (undigit_digit (x / 4)) as [-> _]; [lia|].
    destruct (undigit_digit (x mod 4 * 16 + y / 16)) as [-> _]; [lia|].
    destruct (undigit_digit (y mod 16 * 4 + z / 64)) as [-> ->]; [lia|].
    destruct (undigit_digit (z mod 64)) as [-> ->]; [lia|].
    rewrite (IH Hb). f_equal; [lia|]. f_equal; [lia|]. f_equal. lia.
Qed.

Lemma scalar_cases (c : N) :
  is_scalar c = true ->
  c < 65536 /\ Buffer.isHigh c = false /\ Buffer.isLow c = false.
Proof.
  unfold is_scalar, Buffer.isHigh, Buffer.isLow. intros H.
  apply orb_prop in H as [H | H].
  - apply N.ltb_lt in H. repeat split; [lia| |];
      apply andb_false_intro1; apply N.leb_gt; lia.
  - apply andb_prop in H as [H1 H2]. apply N.ltb_lt in H1, H2.
    repeat split; [lia| |]; apply andb_false_intro2; apply N.leb_gt; lia.
Qed.

Lemma from_scalar (c : N) (s : jsstring) :
  is_scalar c = true ->
  Buffer.from (c :: s) = Buffer.utf8_of_point c ++ Buffer.from s.
Proof.
  intros H. destruct (scalar_cases c H) as (_ & Hh & Hl).
  cbn [Buffer.from]. now rewrite Hh, Hl.
Qed.

Lemma utf8_of_scalar_bytes (c : N) :
  c < 65536 -> bytes (Buffer.utf8_of_point c).
Proof.
  intros H. unfold bytes, Buffer.utf8_of_point.
  destruct (c <? 128) eqn:E1; [apply N.ltb_lt in E1; repeat constructor; lia|].
  destruct (c <? 2048) eqn:E2; [apply N.ltb_lt in E2; repeat constructor; lia|].
  apply N.ltb_lt in H as H'. rewrite H'. repeat constructor; lia.
Qed.

Lemma from_scalars_bytes (s : jsstring) :
  forallb is_scalar s = true -> bytes (Buffer.from s).
Proof.
  induction s as [|c s IH]; cbn [forallb]; intros H; [constructor|].
  apply andb_prop in H as [Hc Hs]. rewrite (from_scalar c s Hc).
  apply Forall_app. split; [|exact (IH Hs)].
  apply utf8_of_scalar_bytes. now apply scalar_cases.
Qed.

Lemma decode_scalar (c : N) (rest : Buffer.Buffer) :
  is_scalar c = true ->
  Buffer.decode None (Buffer.utf8_of_point c ++ rest)
  = c :: Buffer.decode None rest.
Proof.
  intros H. unfold Buffer.utf8_of_point.
  destruct (N.ltb_spec c 128) as [H1 | H1].
  - cbn [app Buffer.decode]. unfold Buffer.lead.
    apply N.ltb_lt in H1. now rewrite H1.
  - destruct (N.ltb_spec c 2048) as [H2 | H2].
    + cbn [app Buffer.decode]. unfold Buffer.lead.
      replace (192 + c / 64 <? 128) with false by (symmetry; apply N.ltb_ge; lia).
      replace ((194 <=? 192 + c / 64) && (192 + c / 64 <=? 223)) with true
        by (symmetry; apply andb_true_intro; split; apply N.leb_le; lia).
      cbn [fst snd app].
      replace ((128 <=? 128 + c mod 64) && (128 + c mod 64 <=? 191)) with true
        by (symmetry; apply andb_true_intro; split; apply N.leb_le; lia).
      cbn [N.eqb Pos.eqb]. unfold Buffer.utf16_of_point.
      replace ((192 + c / 64 - 192) * 64 + (128 + c mod 64 - 128)) with c by lia.
      replace (c <? 65536) with true by (symmetry; apply N.ltb_lt; lia).
      reflexivity.
    + destruct (scalar_cases c H) as (H3 & _ & _).
      apply N.ltb_lt in H3 as H3'. rewrite H3'.
      cbn [app Buffer.decode]. unfold Buffer.lead.
      replace (224 + c / 4096 <? 128) with false by (symmetry; apply N.ltb_ge; lia).
      replace ((194 <=? 224 + c / 4096) && (224 + c / 4096 <=? 223)) with false
        by (symmetry; apply andb_false_intro2; apply N.leb_gt; lia).
      replace ((224 <=? 224 + c / 4096) && (224 + c / 4096 <=? 239)) with true
        by (symmetry; apply andb_true_intro; split; apply N.leb_le; lia).
      cbn [fst snd app].
      assert (Hr : (if 224 + c / 4096 =? 224 then 160 else 128)
                   <= 128 + (c / 64) mod 64
                   <= (if 224 + c / 4096 =? 237 then 159 else 191)).
      { unfold is_scalar in H.
        destruct (N.eqb_spec (224 + c / 4096) 224),
          (N.eqb_spec (224 + c / 4096) 237);
          apply orb_prop in H as [H | H];
          try (apply andb_prop in H as [Ha Hb]; apply N.ltb_lt in Ha, Hb);
          try apply N.ltb_lt in H; lia. }
      replace (((if 224 + c / 4096 =? 224 then 160 else 128)
                <=? 128 + (c / 64) mod 64)
               && (128 + (c / 64) mod 64
                   <=? (if 224 + c / 4096 =? 237 then 159 else 191)))
        with true
        by (symmetry; apply andb_true_intro; split; apply N.leb_le; lia).
      cbn [N.eqb Pos.eqb Pos.sub N.sub Pos.pred_N].
      replace ((128 <=? 128 + c mod 64) && (128 + c mod 64 <=? 191)) with true
        by (symmetry; apply andb_true_intro; split; apply N.leb_le; lia).
      unfold Buffer.utf16_of_point.
      replace (((224 + c / 4096 - 224) * 64 + (128 + (c / 64) mod 64 - 128)) * 64
               + (128 + c mod 64 - 128)) with c by lia.
      rewrite H3'. reflexivity.
Qed.

Lemma utf8_roundtrip (s : jsstring) :
  forallb is_scalar s = true -> Buffer.toString (Buffer.from s) = s.
Proof.
  unfold Buffer.toString.
  induction s as [|c s IH]; cbn [forallb]; intros H; [reflexivity|].
  apply andb_prop in H as [Hc Hs].
  rewrite (from_scalar c s Hc), (decode_scalar c _ Hc). now rewrite (IH Hs).
Qed.

(** X7: the encoded script of a request whose script has no surrogate
    consists of digits of the base64 alphabet and of the padding: it holds no
    quote, no white space and no character that the shell expands, so it
    cannot end the quoted word of the bootstrap command that holds it. *)
Theorem encoded_script_is_base64_text (p : Props) :
  forallb is_scalar (fullScript p) = true ->
  forallb is_base64 (encodedScript p) = true
  /\ includes (lit "'") (encodedScript p) = false.
Proof.
  intros H. unfold encodedScript.
  assert (A : forallb is_base64 (Buffer.base64 (Buffer.from (fullScript p)))
              = true) by (apply base64_units, from_scalars_bytes, H).
  split; [exact A|].
  revert A. generalize (Buffer.base64 (Buffer.from (fullScript p))).
  intros s. induction s as [|c s IH]; [reflexivity|].
  cbn [forallb includes]. intros A. apply andb_prop in A as [Hc Hs].
  rewrite (IH Hs), orb_false_r.
  destruct s; cbn [startsWith lit map list_ascii_of_string];
    destruct (N.eqb_spec (unit_of_ascii "'") c) as [<-|]; try reflexivity;
    discriminate Hc.
Qed.

Lemma encoded_script_is_base64_text_witness :
  forallb is_base64 (encodedScript smb_share) = true
  /\ includes (lit "'") (encodedScript smb_share) = false.
Proof.
  apply (encoded_script_is_base64_text smb_share). vm_compute. reflexivity.
Defined.

(** X8: decoding the encoded script, from base64 and then from UTF-8, gives
    back the composed script, for a request whose script has no
    surrogate. *)
Theorem encoded_script_roundtrip (p : Props) :
  forallb is_scalar (fullScript p) = true ->
  Buffer.toString (base64_decode (encodedScript p)) = fullScript p.
Proof.
  intros H. unfold encodedScript.
  rewrite base64_roundtrip by (apply from_scalars_bytes, H).
  now apply utf8_roundtrip.
Qed.

Lemma encoded_script_roundtrip_witness :
  Buffer.toString (base64_decode (encodedScript smb_share))
  = fullScript smb_share.
Proof.
  apply (encoded_script_roundtrip smb_share). vm_compute. reflexivity.
Defined.

(** ** The calls of a run *)

Lemma supervise_calls (p : Props) (d : Docker) (c : call) :
  In c (fst (supervise p d)) -> c = Wait \/ c = Kill \/ c = ClearTimeout.
Proof.
  unfold supervise.
  destruct (exits d) as [[t code]|], (kill d), (wait d);
    try destruct (t <? timer_delay (executionTimeout p))%Z;
    cbn; intuition.
Qed.

(** X9: when the image can neither be inspected nor pulled, the run throws
    after the calls that concern the image: no container is created, attached
    to or started and no timer is set. *)
Theorem no_container_without_image (p : Props) (d : Docker) (e : Error) :
  image_failure p d = Some e ->
  snd (run p d) = Thrown (raised p e)
  /\ Forall (fun c => container_call c = false) (fst (run p d)).
Proof.
  intros H.
  assert (Hs : startup_failure p d = Some e)
    by (unfold startup_failure; now rewrite H).
  split; [now apply run_not_started|]. apply Forall_forall.
  revert H. unfold image_failure, run. rewrite catch_rethrow.
  unfold resolveImage, request.
  destruct (inspect d (imageName p)); [|discriminate].
  destruct (pull d (imageName p)); [|destruct (followProgress d)];
    try discriminate; intros _; cbn;
    intros c Hc; intuition (subst; reflexivity).
Qed.

Lemma no_container_without_image_witness :
  snd (run zero_timeout without_image)
  = Thrown (raised zero_timeout unknown_image)
  /\ Forall (fun c => container_call c = false)
            (fst (run zero_timeout without_image)).
Proof.
  apply (no_container_without_image zero_timeout without_image unknown_image).
  reflexivity.
Defined.

(** X10: the image is pulled only after a failed inspect: when the image is
    found, the run calls [pull] and [followProgress] for no image. *)
Theorem no_pull_of_a_local_image (p : Props) (d : Docker) :
  inspect d (imageName p) = None ->
  Forall (fun c => c <> FollowProgress /\ forall image, c <> Pull image)
         (fst (run p d)).
Proof.
  intros H. apply Forall_forall. intros c.
  unfold run. rewrite catch_rethrow.
  unfold resolveImage, request. rewrite H.
  destruct (supervise p d) as [l r] eqn:E.
  assert (Hl : In c l -> c = Wait \/ c = Kill \/ c = ClearTimeout).
  { intros Hx. change l with (fst (l, r)) in Hx. rewrite <- E in Hx.
    now apply supervise_calls in Hx. }
  destruct (createContainer d (containerOptions p)), (attach d), (start d);
    destruct r; cbv [catch bind fst snd ret]; cbn [app];
    rewrite ?app_nil_r; cbn [In]; intros Hc;
    repeat match goal with
           | H : _ \/ _ |- _ => destruct H as [H | H]
           | H : False |- _ => contradiction
           | H : In c l |- _ => apply Hl in H
           end;
    subst c; (split; [discriminate|intros image; discriminate]).
Qed.

Lemma no_pull_of_a_local_image_witness :
  Forall (fun c => c <> FollowProgress /\ forall image, c <> Pull image)
         (fst (run sleeper sleeping)).
Proof.
  apply (no_pull_of_a_local_image sleeper sleeping). reflexivity.
Defined.

Lemma supervise_resolved (p : Props) (d : Docker) :
  wait d = None -> wait_settles d = true ->
  fst (supervise p d)
  = [Wait] ++ (if exits_in_time p d then [] else [Kill]) ++ [ClearTimeout].
Proof.
  unfold wait_settles, supervise, exits_in_time. fold (deadline p).
  intros ->.
  destruct (exits d) as [[t c]|], (kill d);
    try destruct (t <? deadline p)%Z; try discriminate; reflexivity.
Qed.

(** X11: once the container is started and [container.wait()] resolves,
    because the script has exited or the kill was carried out, the timer is
    cleared: the calls of the run are those of the start, the setting of the
    timer, the wait, the kill exactly when the script has not exited before
    the timer fires, and the clearing of the timer, in this order. *)
Theorem timer_is_cleared (p : Props) (d : Docker) :
  startup_failure p d = None -> wait d = None -> wait_settles d = true ->
  fst (run p d) = settled_calls p d (negb (exits_in_time p d)).
Proof.
  intros Hs Hr Hw. rewrite (run_started p d Hs). cbn [fst].
  rewrite (supervise_resolved p d Hr Hw). unfold settled_calls.
  now destruct (exits_in_time p d).
Qed.

Lemma timer_is_cleared_witness :
  fst (run sleeper sleeping)
  = settled_calls sleeper sleeping (negb (exits_in_time sleeper sleeping)).
Proof. apply (timer_is_cleared sleeper sleeping); reflexivity. Defined.

(** X12: a kill that fails is ignored: when the timer has fired and the
    daemon refuses the kill, the run goes on waiting and returns, when the
    script exits by itself, all the output delivered until then; when the
    script never exits, the run never settles. *)
Theorem failed_kill_is_ignored (p : Props) (d : Docker) (e : Error) :
  startup_failure p d = None ->
  timed_out p d -> kill d = Some e -> wait d = None ->
  match exits d with
  | Some (t, _) =>
      run p d
      = (settled_calls p d true,
         Returned (result (collect (delivered_until t true d)) d))
  | None => snd (run p d) = Pending
  end.
Proof.
  intros Hs Ht Hk Hw. rewrite (run_started p d Hs).
  unfold timed_out in Ht. unfold supervise, settled_calls.
  fold (deadline p). rewrite Hk, Hw.
  destruct (exits d) as [[t c]|]; [|reflexivity].
  apply Z.ltb_ge in Ht. rewrite Ht. cbn. now rewrite <- app_assoc.
Qed.

Lemma failed_kill_is_ignored_witness :
  run sleeper (unkillable [(20%Z, frame 1 (lit "tick"));
                           (5000%Z, frame 1 (lit "tock"))]
                          (Some (60020, 0)%Z))
  = (settled_calls sleeper
       (unkillable [(20%Z, frame 1 (lit "tick"));
                    (5000%Z, frame 1 (lit "tock"))]
                   (Some (60020, 0)%Z)) true,
     Returned
       (result
          (collect
             (delivered_until 60020 true
                (unkillable [(20%Z, frame 1 (lit "tick"));
                             (5000%Z, frame 1 (lit "tock"))]
                            (Some (60020, 0)%Z))))
          (unkillable [(20%Z, frame 1 (lit "tick"));
                       (5000%Z, frame 1 (lit "tock"))]
                      (Some (60020, 0)%Z)))).
Proof.
  apply (failed_kill_is_ignored sleeper
           (unkillable [(20%Z, frame 1 (lit "tick"));
                        (5000%Z, frame 1 (lit "tock"))]
                       (Some (60020, 0)%Z)) already_stopped).
  - reflexivity.
  - vm_compute. discriminate.
  - reflexivity.
  - reflexivity.
Defined.

(** X14: the status code with which the script exits has no effect on the
    run: neither on its calls, nor on what it returns or throws. *)
Theorem status_code_is_ignored (p : Props) (d : Docker) (code : Z) :
  run p (with_status code d) = run p d.
Proof.
  unfold run, supervise, resolveImage, delivered_until, result.
  cbn [with_status inspect pull followProgress createContainer attach start
       emitted exits kill wait now].
  now destruct (exits d) as [[t c]|].
Qed.

(** ** The handler of the stream, again *)

(** X15: the handler only appends: the output captured so far stays at the
    start of both buffers whatever chunks follow. *)
Theorem handler_only_appends (o : Output) (chunks : list Buffer.Buffer) :
  exists out err,
    stdout (collect_from o chunks) = stdout o ++ out
    /\ stderr (collect_from o chunks) = stderr o ++ err.
Proof.
  revert o. induction chunks as [|c chunks IH]; intros o.
  - exists [], []. cbn. now rewrite !app_nil_r.
  - cbn [collect_from fold_left].
    destruct (IH (on_data o c)) as (out & err & H1 & H2).
    unfold collect_from in H1, H2. rewrite H1, H2.
    unfold on_data. destruct (first_is c 1); [|destruct (first_is c 2)];
      cbn [stdout stderr]; rewrite <- ?app_assoc; eauto.
Qed.

(** X16: when every chunk is one whole frame of stdout or of stderr, with a
    payload of less than 128 bytes, the buffers of the result are the texts
    of the payloads of each stream, in the order of the stream. *)
Theorem whole_frames_are_demultiplexed (frames : list (N * Buffer.Buffer)) :
  Forall (fun f => (fst f = 1 \/ fst f = 2)
                   /\ (List.length (snd f) < 128)%nat) frames ->
  collect (map (fun f => frame (fst f) (snd f)) frames)
  = {| stdout := payloads 1 frames; stderr := payloads 2 frames |}.
Proof.
  intros H. change (collect ?c) with (collect_from {| stdout := []; stderr := [] |} c).
  now rewrite (collect_whole_frames frames _ H).
Qed.

Lemma whole_frames_are_demultiplexed_witness :
  collect (map (fun f => frame (fst f) (snd f))
               [(1, lit "building"); (2, lit "warning: x");
                (1, lit " done"); (2, lit "!")])
  = {| stdout := payloads 1 [(1, lit "building"); (2, lit "warning: x");
                             (1, lit " done"); (2, lit "!")];
       stderr := payloads 2 [(1, lit "building"); (2, lit "warning: x");
                             (1, lit " done"); (2, lit "!")] |}.
Proof.
  apply (whole_frames_are_demultiplexed
           [(1, lit "building"); (2, lit "warning: x");
            (1, lit " done"); (2, lit "!")]).
  repeat constructor; cbn; lia.
Defined.

Example interleaved_frames :
  collect (map (fun f => frame (fst f) (snd f))
               [(1, lit "building"); (2, lit "warning: x");
                (1, lit " done"); (2, lit "!")])
  = {| stdout := lit "building done"; stderr := lit "warning: x!" |}.
Proof. reflexivity. Qed.

(** * Properties of the direct action *)

Lemma cleanup_is_truthy (p : Direct.Props) :
  truthy (Some (Direct.mountCleanup p)) = true.
Proof. reflexivity. Qed.

(** The run, case by case. *)
Ltac direct_cases p h :=
  unfold Direct.run, Direct.attempt_run, Direct.recover, Direct.clean_up,
    Direct.ensure;
  destruct (Direct.exec h (Direct.fullCommand p) (Direct.options p))
    as [[o1 e1]|f1|] eqn:Eexec;
  destruct (Direct.unmount h (Direct.mountCleanup p)) as [u1|fu|] eqn:Eun;
  destruct (Direct.wd_exists h) eqn:Ewd;
  destruct (Direct.wd_mkdir h) as [fwd|] eqn:Ewdm;
  destruct (Direct.mount_requested p) eqn:Emr;
  destruct (Direct.mp_exists h) eqn:Emp;
  destruct (Direct.mp_mkdir h) as [fmp|] eqn:Empm;
  cbv [Direct.catch Direct.bind Direct.await Direct.assign Direct.read
       Direct.ret];
  rewrite ?cleanup_is_truthy, ?Eexec, ?Eun;
  cbv [truthy Direct.catch Direct.bind Direct.await Direct.assign
       Direct.read Direct.ret];
  rewrite ?Eexec, ?Eun; cbn [app fst snd].

(** X17: the direct action never throws: its [catch] block turns every
    failure into a result. *)
Theorem direct_run_never_throws (p : Direct.Props) (h : Direct.Host)
  (f : Direct.Failure) :
  snd (Direct.run p h) <> Direct.Thrown f.
Proof. direct_cases p h; discriminate. Qed.

(** X18: when the command and the unmount come to an end, the direct action
    returns a result whose success flag tells whether a failure occurred:
    after a failure of [mkdirSync] or of the command the result is the
    failure report, with the message of the error, and otherwise the flag is
    [true]. *)
Theorem direct_run_reports_failure (p : Direct.Props) (h : Direct.Host) :
  Direct.settles p h = true ->
  exists r,
    snd (Direct.run p h) = Direct.Returned r
    /\ match Direct.failure p h with
       | Some f =>
           r = Direct.failed h f
           /\ Direct.get "success" r = Some (Direct.JBool false)
           /\ Direct.get "error" r = Some (Direct.message f)
       | None => Direct.get "success" r = Some (Direct.JBool true)
       end.
Proof.
  unfold Direct.settles, Direct.failure, Direct.reaches_exec.
  direct_cases p h; cbn [andb negb]; try discriminate; intros _;
    eexists; (split; [reflexivity|]); try (repeat split; fail);
    unfold Direct.success; destruct (truthy_flag (Direct.captureOutput p));
    reflexivity.
Qed.

Lemma direct_run_reports_failure_witness :
  exists r,
    snd (Direct.run Direct.list_share (Direct.host (Direct.Failed Direct.exit_2)))
    = Direct.Returned r
    /\ match Direct.failure Direct.list_share
               (Direct.host (Direct.Failed Direct.exit_2)) with
       | Some f =>
           r = Direct.failed (Direct.host (Direct.Failed Direct.exit_2)) f
           /\ Direct.get "success" r = Some (Direct.JBool false)
           /\ Direct.get "error" r = Some (Direct.message f)
       | None => Direct.get "success" r = Some (Direct.JBool true)
       end.
Proof.
  apply (direct_run_reports_failure Direct.list_share
           (Direct.host (Direct.Failed Direct.exit_2))).
  reflexivity.
Defined.

Lemma direct_run_returned (p : Direct.Props) (h : Direct.Host)
  (r : Direct.object) :
  snd (Direct.run p h) = Direct.Returned r ->
  (exists f, r = Direct.failed h f)
  \/ (exists out err, r = Direct.success p h out err).
Proof.
  direct_cases p h; intros [= <-]; eauto.
Qed.

Lemma or_value_truthy (v : Direct.value) :
  Direct.truthy_value (Direct.or_value v (Direct.JNumber 1)) = true.
Proof.
  unfold Direct.or_value. now destruct (Direct.truthy_value v) eqn:E.
Qed.

(** X19: the code of a result.  A result that reports a failure has a code
    that is neither 0 nor undefined nor empty: a missing or zero code of the
    error becomes 1.  A result that reports a success has no code. *)
Theorem direct_failure_code (p : Direct.Props) (h : Direct.Host)
  (r : Direct.object) :
  snd (Direct.run p h) = Direct.Returned r ->
  match Direct.get "success" r with
  | Some (Direct.JBool false) =>
      exists v, Direct.get "code" r = Some v
                /\ Direct.truthy_value v = true
  | _ => Direct.get "code" r = None
  end.
Proof.
  intros H. apply direct_run_returned in H as [(f & ->) | (out & err & ->)].
  - cbn. eexists. split; [reflexivity|]. apply or_value_truthy.
  - unfold Direct.success. now destruct (truthy_flag (Direct.captureOutput p)).
Qed.

Lemma direct_failure_code_witness :
  match Direct.get "success"
          (Direct.failed (Direct.host (Direct.Failed Direct.killed_by_timeout))
                         Direct.killed_by_timeout) with
  | Some (Direct.JBool false) =>
      exists v,
        Direct.get "code"
          (Direct.failed (Direct.host (Direct.Failed Direct.killed_by_timeout))
                         Direct.killed_by_timeout) = Some v
        /\ Direct.truthy_value v = true
  | _ => Direct.get "code"
           (Direct.failed (Direct.host (Direct.Failed Direct.killed_by_timeout))
                          Direct.killed_by_timeout) = None
  end.
Proof.
  apply (direct_failure_code Direct.list_share
           (Direct.host (Direct.Failed Direct.killed_by_timeout))).
  reflexivity.
Defined.

Example timeout_is_reported_with_code_1 :
  Direct.get "code"
    (Direct.failed (Direct.host (Direct.Failed Direct.killed_by_timeout))
                   Direct.killed_by_timeout)
  = Some (Direct.JNumber 1).
Proof. reflexivity. Qed.

Lemma eqb_same (a : jsstring) : JS.eqb a a = true.
Proof. now apply eqb_eq. Qed.

(** X20: the unmount runs once, after the command, exactly when a mount was
    asked for and the command was reached and came to an end, whether the
    command has succeeded or failed; it never runs otherwise. *)
Theorem direct_unmount_once (p : Direct.Props) (h : Direct.Host) :
  filter (Direct.is_unmount p) (fst (Direct.run p h))
  = if Direct.mount_requested p && Direct.reaches_exec p h
       && Direct.exec_ends p h
    then [Direct.Exec (Direct.mountCleanup p) None]
    else [].
Proof.
  unfold Direct.reaches_exec, Direct.exec_ends.
  direct_cases p h; cbn [filter andb negb Direct.is_unmount];
    rewrite ?eqb_same; reflexivity.
Qed.

(** X21: how the unmount ends has no effect on the result: a failed unmount
    is ignored, after a command that succeeded as after one that failed. *)
Theorem direct_unmount_failure_is_ignored (p : Direct.Props)
  (h : Direct.Host) (u : jsstring * jsstring) (f : Direct.Failure) :
  snd (Direct.run p (Direct.with_unmount (Direct.Failed f) h))
  = snd (Direct.run p (Direct.with_unmount (Direct.Done u) h)).
Proof.
  unfold Direct.run, Direct.attempt_run, Direct.recover, Direct.clean_up,
    Direct.ensure.
  cbn [Direct.with_unmount Direct.wd_exists Direct.wd_mkdir Direct.mp_exists
       Direct.mp_mkdir Direct.exec Direct.unmount Direct.now].
  destruct (Direct.exec h (Direct.fullCommand p) (Direct.options p))
    as [[out err]|f'|] eqn:Eexec;
  destruct (Direct.wd_exists h), (Direct.wd_mkdir h),
    (Direct.mount_requested p), (Direct.mp_exists h), (Direct.mp_mkdir h);
  cbv [Direct.catch Direct.bind Direct.await Direct.assign Direct.read
       Direct.ret];
  rewrite ?cleanup_is_truthy, ?Eexec;
  cbv [truthy Direct.catch Direct.bind Direct.await Direct.assign
       Direct.read Direct.ret];
  rewrite ?Eexec; reflexivity.
Qed.

(** X22: without [captureOutput] the result of a command that succeeded has
    its standard output as [output] and neither a [stdout] nor a [stderr]
    property: what the command wrote to its error stream is lost. *)
Theorem direct_output_not_captured (p : Direct.Props) (h : Direct.Host)
  (out err : jsstring) :
  truthy_flag (Direct.captureOutput p) = false ->
  Direct.failure p h = None ->
  Direct.settles p h = true ->
  Direct.exec h (Direct.fullCommand p) (Direct.options p)
  = Direct.Done (out, err) ->
  exists r,
    snd (Direct.run p h) = Direct.Returned r
    /\ Direct.get "output" r = Some (Direct.JString out)
    /\ Direct.get "stdout" r = None
    /\ Direct.get "stderr" r = None.
Proof.
  intros Hc Hf Hs He. revert Hf Hs.
  unfold Direct.settles, Direct.failure, Direct.reaches_exec.
  direct_cases p h; cbn [andb negb]; try discriminate; intros _ _;
    injection He as -> ->;
    eexists; (split; [reflexivity|]); unfold Direct.success; rewrite Hc;
    cbn; unfold Direct.or_value; now destruct out.
Qed.

Lemma direct_output_not_captured_witness :
  exists r,
    snd (Direct.run Direct.list_share
           (Direct.host (Direct.Done (lit "report.txt", lit "warning: slow link"))))
    = Direct.Returned r
    /\ Direct.get "output" r = Some (Direct.JString (lit "report.txt"))
    /\ Direct.get "stdout" r = None
    /\ Direct.get "stderr" r = None.
Proof.
  apply (direct_output_not_captured Direct.list_share
           (Direct.host (Direct.Done (lit "report.txt", lit "warning: slow link")))
           (lit "report.txt") (lit "warning: slow link"));
    reflexivity.
Defined.

(** X23: with a mount, the command given to the shell holds the mount
    command, then the change to the working directory, then the command of
    the request as it was given, without cleaning; the unmount is not part of
    it. *)
Theorem direct_command_with_mount (p : Direct.Props) :
  Direct.mount_requested p = true ->
  in_order [render (Direct.mountCommand p);
            lit "cd " ++ show (Direct.workingDirectory p);
            Direct.command p]
           (Direct.fullCommand p)
  /\ Forall (fun s => includes (lit "umount") s = false)
            (literals (Direct.mounted_command p)).
Proof.
  intros H. unfold Direct.fullCommand. rewrite H. split.
  - unfold Direct.mounted_command. rewrite !render_app.
    cbn [render flat_map text_of]. rewrite ?app_nil_r, <- ?app_assoc.
    match goal with
    | |- in_order _ (?a ++ ?m ++ ?b ++ ?w ++ ?c ++ ?k ++ ?e) =>
        change b with (lit "
          
          # Execute user command
          " ++ lit "cd ");
        replace (a ++ m ++ (lit "
          
          # Execute user command
          " ++ lit "cd ") ++ w ++ c ++ k ++ e)
          with (a ++ m ++ lit "
          
          # Execute user command
          " ++ (lit "cd " ++ w) ++ c ++ k ++ e)
          by now rewrite <- !app_assoc
    end.
    repeat apply in_order_of_text. exact I.
  - unfold Direct.mounted_command, Direct.mountCommand, Direct.nfsOptions,
      Direct.smbOptions, or_default.
    destruct (Direct.is_type p "nfs"), (Direct.is_type p "smb"),
      (truthy (Direct.mountOptions p)), (truthy (Direct.mountUsername p)),
      (truthy (Direct.mountPassword p));
      rewrite ?literals_app; cbn [literals flat_map app]; closed_literals.
Qed.

Lemma direct_command_with_mount_witness :
  in_order [render (Direct.mountCommand Direct.list_share);
            lit "cd " ++ show (Direct.workingDirectory Direct.list_share);
            Direct.command Direct.list_share]
           (Direct.fullCommand Direct.list_share)
  /\ Forall (fun s => includes (lit "umount") s = false)
            (literals (Direct.mounted_command Direct.list_share)).
Proof.
  apply (direct_command_with_mount Direct.list_share). reflexivity.
Defined.

